(** * geemap front-end widgets: property synchronisation, custom messages
      and the inspector tree

    A shallow embedding of [js/inspector.ts] (classes [TreeNode] and
    [Inspector]), of the layer editor (classes [RasterLayerEditor],
    [PaletteEditor] and [LayerEditor]), of the container (class
    [Container]) and of [renderSelect], together with the two host objects
    the classes talk to: the anywidget model ([AnyModel]: [get], [set],
    [save_changes], [on], [send]) and Lit's reactive properties
    ([changedProperties], and the update of an element: [render()], then
    the [updated] hook). *)

From Stdlib Require Import List String Bool Floats.
From stdpp Require Import base gmap strings list.

Set Default Proof Using "Type".
Set Warnings "-register-all".

(** ** JavaScript values *)

(** Errors a JavaScript call can raise here: a [TypeError] of the language
    (property read on [undefined]/[null], [in] on a primitive, assignment
    through [undefined]) and an error raised by the host model while the
    named field is read or written. *)
Inductive Exn :=
| TypeError
| ModelError (field : string).

Module Js.

(** A value.  Numbers are binary64 floats.  Arrays and objects carry the
    identity [oid] of the object they are: two object values are the same
    object exactly when their [oid]s agree.  An object is given by its own
    properties, in insertion order. *)
Inductive Value :=
| Undefined
| Null
| Bool (b : bool)
| Num (x : float)
| Str (s : string)
| Arr (oid : nat) (items : list Value)
| Obj (oid : nat) (fields : list (string * Value)).

(** [fields[k]], first own property named [k]. *)
Fixpoint own (k : string) (fields : list (string * Value)) : option Value :=
  match fields with
  | [] => None
  | (k', v) :: rest => if String.eqb k k' then Some v else own k rest
  end.

Definition is_nan (x : float) : bool := negb (PrimFloat.eqb x x).

(** ToBoolean. *)
Definition truthy (v : Value) : bool :=
  match v with
  | Undefined | Null => false
  | Bool b => b
  | Num x => negb (PrimFloat.eqb x 0%float || is_nan x)
  | Str s => negb (String.eqb s "")
  | Arr _ _ | Obj _ _ => true
  end.

(** [v === w]. *)
Definition strict_equals (v w : Value) : bool :=
  match v, w with
  | Undefined, Undefined => true
  | Null, Null => true
  | Bool a, Bool b => Bool.eqb a b
  | Num x, Num y => PrimFloat.eqb x y
  | Str s, Str t => String.eqb s t
  | Arr i _, Arr j _ => Nat.eqb i j
  | Obj i _, Obj j _ => Nat.eqb i j
  | _, _ => false
  end.

(** [Object.is(v, w)]: as [===], but NaN is itself and the two zeros are
    told apart. *)
Definition same_value (v w : Value) : bool :=
  match v, w with
  | Num x, Num y => PrimFloat.Leibniz.eqb x y
  | _, _ => strict_equals v w
  end.

(** The property read [v.k], for the property names this code reads
    ([bandstats], [stretch], [min], [max], [palette], [colormap],
    [classes], [children]): none of them is defined on a primitive, on an
    array or on [Object.prototype], so the read gives an own property of an
    object or [undefined]; on [undefined] and [null] it raises. *)
Definition member (v : Value) (k : string) : Exn + Value :=
  match v with
  | Undefined | Null => inl TypeError
  | Obj _ fields => inr (default Undefined (own k fields))
  | _ => inr Undefined
  end.

(** [k in v], for the same property names: raises unless [v] is an object
    (arrays included). *)
Definition has_property (k : string) (v : Value) : Exn + bool :=
  match v with
  | Obj _ fields => inr (bool_decide (is_Some (own k fields)))
  | Arr _ _ => inr false
  | _ => inl TypeError
  end.

(** [v > 0].  The operand is converted to a number first: [undefined] to
    NaN, [null] to 0, a boolean to 0 or 1.  For a string, an array or an
    object the conversion is the work of [ToPrimitive] and [StringToNumber];
    it is left to [convert], so that what is proved holds however it goes:
    [convert v] is the number, or [None] when the conversion raises its
    [TypeError] (an object whose [toString] is not callable).  A comparison
    with NaN is false. *)
Definition exceeds_zero (convert : Value -> option float) (v : Value)
  : Exn + bool :=
  match v with
  | Undefined | Null => inr false
  | Bool b => inr b
  | Num x => inr (PrimFloat.ltb 0%float x)
  | Str _ | Arr _ _ | Obj _ _ =>
      match convert v with
      | Some x => inr (PrimFloat.ltb 0%float x)
      | None => inl TypeError
      end
  end.

End Js.

(** ** The inspector tree: [interface Node] and [class TreeNode] *)

(** An optional boolean key of an object received from the notebook: the key
    is missing, or it is there with [undefined]/[null], or with a boolean. *)
Inductive OptionalFlag :=
| Absent
| Nullish
| Flag (b : bool).

Module Node.

(** [interface Node { label?; children?; expanded?; topLevel? }]. *)
Inductive t := mk {
  label : option string;
  children : option (list t);
  expanded : OptionalFlag;
  topLevel : option bool
}.

(** ['expanded' in node]. *)
Definition has_expanded (n : t) : bool :=
  match expanded n with
  | Absent => false
  | _ => true
  end.

(** [node.expanded], [None] standing for [undefined] and [null]. *)
Definition read_expanded (n : t) : option bool :=
  match expanded n with
  | Flag b => Some b
  | _ => None
  end.

End Node.

Module TreeNode.

(** The reactive properties of the element: [node] and [expanded]. *)
Record t := mk {
  node : Node.t;
  expanded : bool
}.

Definition set_expanded (b : bool) (this : t) : t :=
  {| node := node this; expanded := b |}.

(** [updated(changedProperties)]; [changedProperties] is given by the keys
    of the map.  [this.node] is an object, hence truthy. *)
Definition updated (changedProperties : list string) (this : t) : t :=
  if bool_decide ("node" ∈ changedProperties) && true then
    if Node.has_expanded (node this) then
      set_expanded (default false (Node.read_expanded (node this))) this
    else this
  else this.

Definition toggleExpand (this : t) : t :=
  set_expanded (negb (expanded this)) this.

Definition hasChildren (this : t) : bool :=
  Nat.ltb 0 (length (default [] (Node.children (node this)))).

(** [renderChildren]: the nodes for which a child element is rendered. *)
Definition renderChildren (this : t) : list Node.t :=
  if expanded this && hasChildren this
  then default [] (Node.children (node this))
  else [].

(** A new element, as [renderChild] makes it: the property initialisers
    run, [node] is assigned, and the first update reports both. *)
Definition create (n : Node.t) : t :=
  updated ["expanded"; "node"] {| node := n; expanded := false |}.

(** The backing data is replaced: [node] is assigned another object than
    the current one, which Lit reports to [updated] under the key
    ["node"]. *)
Definition replaceNode (n' : Node.t) (this : t) : t :=
  updated ["node"] {| node := n'; expanded := expanded this |}.

(** [this.node.topLevel], as a condition. *)
Definition topLevel (this : t) : bool :=
  default false (Node.topLevel (node this)).

(** [renderBullet]: the symbol in the bullet of the row, if any. *)
Definition renderBullet (this : t) : option string :=
  if topLevel this then
    if expanded this then Some "&#xe909;" else Some "&#xe146;"
  else if hasChildren this then
    if expanded this then Some "&#xe15b;" else Some "&#xe145;"
  else None.

(** [renderIcon]: the symbol of the icon of the row. *)
Definition renderIcon (this : t) : string :=
  if topLevel this then "&#xe1a1;"
  else if hasChildren this then
    if expanded this then "&#xe2c8;" else "&#xe2c7;"
  else "&#xe66d;".

End TreeNode.

Module Subtree.

(** A [tree-node] element of the page together with the [tree-node]
    elements its render root holds, one for each child its last [render()]
    has put there. *)
Inductive t := mk {
  element : TreeNode.t;
  childElements : list t
}.

(** The element that the template of [renderChild(child)] becomes when Lit
    commits it, after the updates of the new element and of the elements
    below it: the element is created on [child] and, when it is expanded,
    renders its own children in the same way. *)
Fixpoint renderChild (child : Node.t) : t :=
  let element := TreeNode.create child in
  mk element
     (match Node.children child with
      | Some children =>
          if TreeNode.expanded element && TreeNode.hasChildren element
          then map renderChild children
          else []
      | None => []
      end).

(** A click on the node: [toggleExpand], then the update of the element.
    For a node that is collapsed now, [renderChildren] gives [nothing] and
    Lit removes the child elements; for a node that was collapsed until
    now, the list template is new to Lit, which makes a new element for
    each child. *)
Definition toggleExpand (this : t) : t :=
  let element := TreeNode.toggleExpand (element this) in
  mk element (map renderChild (TreeNode.renderChildren element)).

(** The element reached from [this] by the indices of [path], each the
    position of a child element. *)
Fixpoint find (path : list nat) (this : t) : option t :=
  match path with
  | [] => Some this
  | i :: path => childElements this !! i ≫= find path
  end.

(** A click on the element at [path]; without such an element, no
    click. *)
Fixpoint click (path : list nat) (this : t) : t :=
  match path with
  | [] => toggleExpand this
  | i :: path => mk (element this) (alter (click path) i (childElements this))
  end.

End Subtree.

(** ** The host model: [AnyModel] *)

(** The callbacks this code registers on the model, one constructor per
    closure of the source. *)
Inductive Listener :=
| SyncProperty (modelKey widgetKey : string)
    (* [() => { this[widgetKey] = model.get(modelKey); }] *)
| CustomMessage.
    (* [(msg) => { ... }] of [registerCustomMessageHandlers] *)

(** The calls by which the widget writes to the model. *)
Inductive Call :=
| CallSet (key : string) (value : Js.Value)
| CallSaveChanges
| CallSend (content : Js.Value).

Module AnyModel.

(** The model object of the host: its attributes, the fields on which a
    read or write raises at present (the model is being torn down, the
    field is unknown), the listeners registered by [on] in registration
    order, and the write calls received so far, oldest first. *)
Record t := mk {
  attributes : gmap string Js.Value;
  failing : gset string;
  listeners : list (string * Listener);
  calls : list Call
}.

Definition get (key : string) (m : t) : Exn + Js.Value :=
  if decide (key ∈ failing m) then inl (ModelError key)
  else inr (default Js.Undefined (attributes m !! key)).

(** The model with a value staged for a field. *)
Definition stage (key : string) (value : Js.Value) (m : t) : t :=
  {| attributes := <[key := value]> (attributes m);
     failing := failing m;
     listeners := listeners m;
     calls := calls m ++ [CallSet key value] |}.

(** [set] stages the value locally; as in section 6 of the specification,
    change events come with changes of the remote value ([store] below, then
    [trigger]). *)
Definition set (key : string) (value : Js.Value) (m : t) : Exn + t :=
  if decide (key ∈ failing m) then inl (ModelError key)
  else inr (stage key value m).

Definition save_changes (m : t) : t :=
  {| attributes := attributes m; failing := failing m;
     listeners := listeners m; calls := calls m ++ [CallSaveChanges] |}.

Definition send (content : Js.Value) (m : t) : t :=
  {| attributes := attributes m; failing := failing m;
     listeners := listeners m; calls := calls m ++ [CallSend content] |}.

Definition on (event : string) (callback : Listener) (m : t) : t :=
  {| attributes := attributes m; failing := failing m;
     listeners := listeners m ++ [(event, callback)]; calls := calls m |}.

(** The host stores a new value of a field (before it fires the change
    event). *)
Definition store (key : string) (value : Js.Value) (m : t) : t :=
  {| attributes := <[key := value]> (attributes m); failing := failing m;
     listeners := listeners m; calls := calls m |}.

(** The callbacks registered for an event. *)
Definition listeners_for (event : string) (m : t) : list Listener :=
  map snd (filter (fun l => String.eqb (fst l) event) (listeners m)).

End AnyModel.

(** ** The child elements of the layer editor *)

Module PaletteEditor.

Record t := mk { palette : Js.Value }.

End PaletteEditor.

Module RasterLayerEditor.

(** The properties of the element the layer editor reads and writes, and
    the [palette-editor] found in its render root (none before the first
    render). *)
Record t := mk {
  selectedBands : Js.Value;
  stretch : string;
  minValue : Js.Value;
  maxValue : Js.Value;
  minAndMaxValuesLocked : bool;
  paletteEditor : option PaletteEditor.t
}.

Definition set_minValue (v : Js.Value) (this : t) : t :=
  mk (selectedBands this) (stretch this) v (maxValue this)
     (minAndMaxValuesLocked this) (paletteEditor this).

Definition set_maxValue (v : Js.Value) (this : t) : t :=
  mk (selectedBands this) (stretch this) (minValue this) v
     (minAndMaxValuesLocked this) (paletteEditor this).

Definition set_palette (v : Js.Value) (this : t) : Exn + t :=
  match paletteEditor this with
  | Some _ =>
      inr (mk (selectedBands this) (stretch this) (minValue this)
              (maxValue this) (minAndMaxValuesLocked this)
              (Some (PaletteEditor.mk v)))
  | None => inl TypeError
  end.

(** [onStretchChanged], up to the event it dispatches; [value] is
    [event.target.value]. *)
Definition onStretchChanged (value : string) (this : t) : t :=
  if String.eqb value "custom" then
    mk (selectedBands this) value (minValue this) (maxValue this) false
       (paletteEditor this)
  else
    mk (selectedBands this) value Js.Undefined Js.Undefined true
       (paletteEditor this).

End RasterLayerEditor.

(** ** A widget and its model *)

(** The state a widget runs in: the model of the page, whether
    [this._model] refers to it, the reactive properties of the widget
    (Lit), the changes Lit has recorded for the next update (property name
    and old value, in order), the child elements the widget queries (type
    [C]) and the identity the next new object gets. *)
Record World (C : Type) := mkWorld {
  model : AnyModel.t;
  _model : bool;
  properties : gmap string Js.Value;
  changedProperties : list (string * Js.Value);
  children : C;
  next_oid : nat
}.
Arguments mkWorld {C}.
Arguments model {C}.
Arguments _model {C}.
Arguments properties {C}.
Arguments changedProperties {C}.
Arguments children {C}.
Arguments next_oid {C}.

(** A method: it runs in a world and ends normally or by an exception; what
    it did before the exception stays done. *)
Definition M (C A : Type) : Type := World C -> (Exn + A) * World C.

Definition ret {C A} (a : A) : M C A := fun w => (inr a, w).

Definition throw {C A} (e : Exn) : M C A := fun w => (inl e, w).

Definition bind {C A B} (m : M C A) (k : A -> M C B) : M C B :=
  fun w =>
    match m w with
    | (inr a, w') => k a w'
    | (inl e, w') => (inl e, w')
    end.

Declare Scope method_scope.
Delimit Scope method_scope with method.
Notation "x <- m ;; k" := (bind m (fun x => k))
  (at level 100, m at next level, right associativity) : method_scope.
Notation "m ;; k" := (bind m (fun _ => k))
  (at level 100, right associativity) : method_scope.
Open Scope method_scope.

(** The result of a JavaScript expression that may raise. *)
Definition js {C A} (r : Exn + A) : M C A :=
  match r with
  | inl e => throw e
  | inr a => ret a
  end.

(** [for (const x of l) { f(x) }]. *)
Fixpoint for_of {C A} (l : list A) (f : A -> M C unit) : M C unit :=
  match l with
  | [] => ret tt
  | x :: rest => f x ;; for_of rest f
  end.

Section Primitives.
Context {C : Type}.

Definition with_model (m : AnyModel.t) (w : World C) : World C :=
  mkWorld m (_model w) (properties w) (changedProperties w) (children w)
          (next_oid w).

Definition with_children (c : C) (w : World C) : World C :=
  mkWorld (model w) (_model w) (properties w) (changedProperties w) c
          (next_oid w).

(** [model.get(key)]. *)
Definition model_get (key : string) : M C Js.Value :=
  fun w => (AnyModel.get key (model w), w).

(** [model.set(key, value)]. *)
Definition model_set (key : string) (value : Js.Value) : M C unit :=
  fun w =>
    match AnyModel.set key value (model w) with
    | inr m' => (inr tt, with_model m' w)
    | inl e => (inl e, w)
    end.

Definition model_save_changes : M C unit :=
  fun w => (inr tt, with_model (AnyModel.save_changes (model w)) w).

Definition model_send (content : Js.Value) : M C unit :=
  fun w => (inr tt, with_model (AnyModel.send content (model w)) w).

Definition model_on (event : string) (callback : Listener) : M C unit :=
  fun w => (inr tt, with_model (AnyModel.on event callback (model w)) w).

(** [this._model = model]. *)
Definition assign_model : M C unit :=
  fun w =>
    (inr tt,
     mkWorld (model w) true (properties w) (changedProperties w)
             (children w) (next_oid w)).

(** [this._model?.method(args)]: neither the arguments nor the call are
    evaluated when [this._model] is undefined. *)
Definition optional_model (call : M C unit) : M C unit :=
  fun w => if _model w then call w else (inr tt, w).

(** [this[name]]. *)
Definition get_property (name : string) : M C Js.Value :=
  fun w => (inr (default Js.Undefined (properties w !! name)), w).

(** Lit's default [hasChanged]. *)
Definition notEqual (value old : Js.Value) : bool :=
  negb (Js.same_value value old).

(** [this[name] = value] on a reactive property: the value is stored, and
    when it has changed the property is recorded for the next update with
    its old value, unless it is recorded already. *)
Definition set_property (name : string) (value : Js.Value) : M C unit :=
  fun w =>
    let old := default Js.Undefined (properties w !! name) in
    let recorded :=
      if notEqual value old
         && negb (bool_decide (name ∈ map fst (changedProperties w)))
      then changedProperties w ++ [(name, old)]
      else changedProperties w in
    (inr tt,
     mkWorld (model w) (_model w) (<[name := value]> (properties w))
             recorded (children w) (next_oid w)).

(** An array literal [[v1, ...]]. *)
Definition new_array (items : list Js.Value) : M C Js.Value :=
  fun w =>
    (inr (Js.Arr (next_oid w) items),
     mkWorld (model w) (_model w) (properties w) (changedProperties w)
             (children w) (S (next_oid w))).

(** An object literal [{ k1: v1, ... }]. *)
Definition new_object (fields : list (string * Js.Value)) : M C Js.Value :=
  fun w =>
    (inr (Js.Obj (next_oid w) fields),
     mkWorld (model w) (_model w) (properties w) (changedProperties w)
             (children w) (S (next_oid w))).

(** The record of changes starts afresh. *)
Definition markUpdated (w : World C) : World C :=
  mkWorld (model w) (_model w) (properties w) [] (children w) (next_oid w).

(** One update of the element by Lit ([performUpdate]), when changes are
    recorded: [render()] of the element is called first.  If it raises, the
    record is dropped, the [updated] hook does not run and the error leaves
    the update.  Otherwise the record starts afresh and the changes are
    handed to [updated]. *)
Definition performUpdate {T : Type} (render : M C T)
    (updated : list (string * Js.Value) -> M C unit) : M C unit :=
  fun w =>
    match changedProperties w with
    | [] => (inr tt, w)
    | changed =>
        match render w with
        | (inr _, w') => updated changed (markUpdated w')
        | (inl e, w') => (inl e, markUpdated w')
        end
    end.

End Primitives.

(** ** The code every widget repeats: [set model], [updated], the close
       button *)

(** Modelled from the spec: [reverseMap], which the classes import from
    [js/utils.ts]; it is the [invert()] of a key map (section 4.1): the
    mapping from local property to remote field, without an entry for a null
    local property, whose construction fails when two remote fields map to
    the same local property. *)
Fixpoint reverseMap (m : list (string * option string))
  : option (gmap string string) :=
  match m with
  | [] => Some ∅
  | (key, value) :: rest =>
      match reverseMap rest, value with
      | None, _ => None
      | Some inverse, None => Some inverse
      | Some inverse, Some prop =>
          if decide (is_Some (inverse !! prop)) then None
          else Some (<[prop := key]> inverse)
      end
  end.

Section Widget.
Context {C : Type}.

(** The two static maps of the class. *)
Variable modelNameToViewName : list (string * option string).
Variable viewNameToModelName : gmap string string.

(** The body of the [for] loop of [set model(model)], for one entry of
    [modelNameToViewName]. *)
Definition set_model_step : string * option string -> M C unit :=
  fun '(modelKey, widgetKey) =>
    match widgetKey with
    | Some widgetKey =>
        if negb (String.eqb widgetKey "") then
          (* Get initial values from the Python model. *)
          value <- model_get modelKey ;;
          set_property widgetKey value ;;
          (* Listen for updates to the model. *)
          model_on ("change:" +:+ modelKey) (SyncProperty modelKey widgetKey)
        else ret tt
    | None => ret tt
    end.

(** The [for] loop of [set model(model)]. *)
Definition set_model_fields : M C unit :=
  for_of modelNameToViewName set_model_step.

(** The body of the [for] loop of [updated], for one entry of
    [changedProperties]. *)
Definition updated_step : string * Js.Value -> M C unit :=
  fun '(viewProp, _) =>
    match viewNameToModelName !! viewProp with
    | Some modelProp =>
        optional_model
          (value <- get_property viewProp ;; model_set modelProp value)
    | None => ret tt
    end.

(** [updated(changedProperties)]. *)
Definition updated (changed : list (string * Js.Value)) : M C unit :=
  (* Update the model properties so they're reflected in Python. *)
  for_of changed updated_step ;;
  optional_model model_save_changes.

(** [onCloseButtonClicked]. *)
Definition onCloseButtonClicked : M C unit :=
  optional_model
    (msg <- new_object [("type", Js.Str "click"); ("id", Js.Str "close")] ;;
     model_send msg).

(** How the model runs the callbacks: [onCustomMessage] is the body of
    the [msg:custom] callback of the class. *)
Variable onCustomMessage : Js.Value -> M C unit.

Definition call_listener (l : Listener) (arg : Js.Value) : M C unit :=
  match l with
  | SyncProperty modelKey widgetKey =>
      value <- model_get modelKey ;; set_property widgetKey value
  | CustomMessage => onCustomMessage arg
  end.

(** The model fires an event: the callbacks registered for it run in
    registration order; the result is the number of callbacks run. *)
Definition trigger (event : string) (arg : Js.Value) : M C nat :=
  fun w =>
    let callbacks := AnyModel.listeners_for event (model w) in
    (for_of callbacks (fun l => call_listener l arg) ;;
     ret (length callbacks)) w.

(** The notebook changes a field: the model stores the value and fires
    [change:key]. *)
Definition remote_change (key : string) (value : Js.Value) : M C nat :=
  (fun w => (inr tt, with_model (AnyModel.store key value (model w)) w)) ;;
  trigger ("change:" +:+ key) Js.Undefined.

(** The notebook sends a custom message. *)
Definition custom_message (msg : Js.Value) : M C nat :=
  trigger "msg:custom" msg.

End Widget.

(** ** [class Inspector] *)

Module Inspector.

Definition modelNameToViewName : list (string * option string) :=
  [ ("hide_close_button", Some "hideCloseButton");
    ("expand_points", Some "expandPoints");
    ("expand_pixels", Some "expandPixels");
    ("expand_objects", Some "expandObjects");
    ("point_info", Some "pointInfo");
    ("pixel_info", Some "pixelInfo");
    ("object_info", Some "objectInfo") ].

Definition viewNameToModelName : gmap string string :=
  default ∅ (reverseMap modelNameToViewName).

(** [set model(model)]. *)
Definition set_model : M unit unit :=
  assign_model ;;
  set_model_fields modelNameToViewName.

Definition updated : list (string * Js.Value) -> M unit unit :=
  updated viewNameToModelName.

(** The class registers no [msg:custom] callback. *)
Definition onCustomMessage (_ : Js.Value) : M unit unit := ret tt.

Definition remote_change : string -> Js.Value -> M unit nat :=
  remote_change onCustomMessage.

(** The property initialisers of the class, run by the constructor. *)
Definition construct : M unit unit :=
  set_property "hideCloseButton" (Js.Bool false) ;;
  set_property "expandPoints" (Js.Bool false) ;;
  set_property "expandPixels" (Js.Bool true) ;;
  set_property "expandObjects" (Js.Bool false) ;;
  pointInfo <- new_object [] ;; set_property "pointInfo" pointInfo ;;
  pixelInfo <- new_object [] ;; set_property "pixelInfo" pixelInfo ;;
  objectInfo <- new_object [] ;; set_property "objectInfo" objectInfo.

(** The page before the element exists: [this._model] undefined, no
    property set. *)
Definition blank (m : AnyModel.t) (oid : nat) : World unit :=
  mkWorld m false ∅ [] tt oid.

(** [render({ model, el })], the function of the module: the element is
    created and given the model; Lit updates it afterwards
    ([performUpdate (render_template convert) updated]). *)
Definition render : M unit unit :=
  construct ;;
  set_model.

(** [renderNode(node)]: the node a [tree-node] is rendered for, or
    [nothing].  The test is [(node.children?.length ?? 0) > 0]: the read of
    [children] raises on [undefined] and [null]; an array and a string have
    their length, a boolean and a number have none, and an object has the
    [length] it holds. *)
Definition renderNode (convert : Js.Value -> option float) (node : Js.Value)
  : Exn + option Js.Value :=
  match Js.member node "children" with
  | inl e => inl e
  | inr children =>
      let shown :=
        match children with
        | Js.Undefined | Js.Null => inr false
        | Js.Arr _ items => inr (Nat.ltb 0 (length items))
        | Js.Str s => inr (negb (String.eqb s ""))
        | Js.Bool _ | Js.Num _ => inr false
        | Js.Obj _ fields =>
            match default Js.Undefined (Js.own "length" fields) with
            | Js.Undefined | Js.Null => inr false
            | len => Js.exceeds_zero convert len
            end
        end in
      match shown with
      | inr true => inr (Some node)
      | inr false => inr None
      | inl e => inl e
      end
  end.

(** [onPointCheckboxEvent], [onPixelCheckboxEvent] and
    [onFeatureCheckboxEvent]; [checked] is [event.target.checked]. *)
Definition onPointCheckboxEvent (checked : bool) : M unit unit :=
  set_property "expandPoints" (Js.Bool checked).

Definition onPixelCheckboxEvent (checked : bool) : M unit unit :=
  set_property "expandPixels" (Js.Bool checked).

Definition onFeatureCheckboxEvent (checked : bool) : M unit unit :=
  set_property "expandObjects" (Js.Bool checked).

(** What [render()] hands to its template: the value for
    [.hideCloseButton] of the container, the values for [.checked] of the
    three checkboxes, and the nodes of the object browser. *)
Record Template := mkTemplate {
  hideCloseButton : Js.Value;
  checked : list Js.Value;
  objectBrowser : list Js.Value
}.

(** [render()] of the class, which Lit calls in each update of the
    element. *)
Definition render_template (convert : Js.Value -> option float)
  : M unit Template :=
  hideCloseButton <- get_property "hideCloseButton" ;;
  expandPoints <- get_property "expandPoints" ;;
  expandPixels <- get_property "expandPixels" ;;
  expandObjects <- get_property "expandObjects" ;;
  pointInfo <- get_property "pointInfo" ;;
  point <- js (renderNode convert pointInfo) ;;
  pixelInfo <- get_property "pixelInfo" ;;
  pixel <- js (renderNode convert pixelInfo) ;;
  objectInfo <- get_property "objectInfo" ;;
  object <- js (renderNode convert objectInfo) ;;
  ret (mkTemplate hideCloseButton [expandPoints; expandPixels; expandObjects]
                  (omap id [point; pixel; object])).

End Inspector.

(** ** [class LayerEditor] *)

Module LayerEditor.

Definition modelNameToViewName : list (string * option string) :=
  [ ("title", Some "title");
    ("type", Some "type");
    ("band_names", Some "bandNames");
    ("colormaps", Some "colormaps");
    ("children", None) ].

Definition viewNameToModelName : gmap string string :=
  default ∅ (reverseMap modelNameToViewName).

(** The child the class queries: [rasterEditor], the element with id
    [raster-layer-editor] of the render root, if there is one. *)
Abbreviation W := (World (option RasterLayerEditor.t)).
Abbreviation Method := (M (option RasterLayerEditor.t)).

(** The property initialisers of the class, run by the constructor. *)
Definition construct : Method unit :=
  set_property "title" (Js.Str "") ;;
  set_property "type" (Js.Str "") ;;
  bandNames <- new_array [] ;; set_property "bandNames" bandNames ;;
  colormaps <- new_array [] ;; set_property "colormaps" colormaps.

(** The page before the element exists: [this._model] undefined, no
    property set, nothing rendered. *)
Definition blank (m : AnyModel.t) (oid : nat) : W :=
  mkWorld m false ∅ [] None oid.

(** [this.rasterEditor]. *)
Definition rasterEditor : Method (option RasterLayerEditor.t) :=
  fun w => (inr (children w), w).

(** [this.rasterEditor.p = v], by the function that assigns [p]. *)
Definition assign_rasterEditor
    (assign : RasterLayerEditor.t -> Exn + RasterLayerEditor.t)
  : Method unit :=
  fun w =>
    match children w with
    | Some editor =>
        match assign editor with
        | inr editor' => (inr tt, with_children (Some editor') w)
        | inl e => (inl e, w)
        end
    | None => (inl TypeError, w)
    end.

(** [handleBandstatsResponse(response)]. *)
Definition handleBandstatsResponse (response : Js.Value) : Method unit :=
  editor <- rasterEditor ;;
  match editor with
  | Some editor =>
      bandstats <- js (Js.member response "bandstats") ;;
      stretch <- js (Js.member bandstats "stretch") ;;
      if Js.strict_equals stretch (Js.Str (RasterLayerEditor.stretch editor))
      then
        bandstats <- js (Js.member response "bandstats") ;;
        min <- js (Js.member bandstats "min") ;;
        assign_rasterEditor (fun e => inr (RasterLayerEditor.set_minValue min e)) ;;
        bandstats <- js (Js.member response "bandstats") ;;
        max <- js (Js.member bandstats "max") ;;
        assign_rasterEditor (fun e => inr (RasterLayerEditor.set_maxValue max e))
      else ret tt
  | None => ret tt
  end.

(** [this.rasterEditor?.renderRoot?.querySelector("palette-editor")]. *)
Definition paletteEditor : Method (option PaletteEditor.t) :=
  fun w =>
    (inr (match children w with
          | Some editor => RasterLayerEditor.paletteEditor editor
          | None => None
          end), w).

(** [handlePaletteResponse(response)]. *)
Definition handlePaletteResponse (response : Js.Value) : Method unit :=
  paletteEditor <- paletteEditor ;;
  palette <- js (Js.member response "palette") ;;
  palette <- js (Js.member palette "palette") ;;
  if Js.truthy palette then
    palette <- js (Js.member response "palette") ;;
    palette <- js (Js.member palette "palette") ;;
    match paletteEditor with
    | Some _ => assign_rasterEditor (RasterLayerEditor.set_palette palette)
    | None => throw TypeError
    end
  else ret tt.

(** The callback [registerCustomMessageHandlers] registers for
    [msg:custom] (its two [console.log] calls left out). *)
Definition onCustomMessage (msg : Js.Value) : Method unit :=
  has_bandstats <- js (Js.has_property "bandstats" msg) ;;
  if has_bandstats then handleBandstatsResponse msg
  else
    has_palette <- js (Js.has_property "palette" msg) ;;
    if has_palette then handlePaletteResponse msg
    else ret tt.

Definition registerCustomMessageHandlers : Method unit :=
  optional_model (model_on "msg:custom" CustomMessage).

(** [set model(model)]. *)
Definition set_model : Method unit :=
  assign_model ;;
  set_model_fields modelNameToViewName ;;
  registerCustomMessageHandlers.

Definition updated : list (string * Js.Value) -> Method unit :=
  updated viewNameToModelName.

Definition remote_change : string -> Js.Value -> Method nat :=
  remote_change onCustomMessage.

Definition custom_message : Js.Value -> Method nat :=
  custom_message onCustomMessage.

(** [this.rasterEditor?.p], by the function that reads [p]. *)
Definition rasterEditor_optional
    (read : RasterLayerEditor.t -> Js.Value) : Method Js.Value :=
  editor <- rasterEditor ;;
  ret (match editor with
       | Some editor => read editor
       | None => Js.Undefined
       end).

(** [calculateBandStats(event)] (its two [console.log] calls left out). *)
Definition calculateBandStats : Method unit :=
  optional_model
    (bands <- rasterEditor_optional RasterLayerEditor.selectedBands ;;
     stretch <- rasterEditor_optional
                  (fun e => Js.Str (RasterLayerEditor.stretch e)) ;;
     detail <- new_object [("bands", bands); ("stretch", stretch)] ;;
     msg <- new_object [("type", Js.Str "calculate");
                        ("id", Js.Str "band-stats");
                        ("detail", detail)] ;;
     model_send msg).

(** [onPaletteChanged(event)]; [detail] is [event.detail]. *)
Definition onPaletteChanged (detail : Js.Value) : Method unit :=
  optional_model
    (colormap <- js (Js.member detail "colormap") ;;
     classes <- js (Js.member detail "classes") ;;
     palette <- js (Js.member detail "palette") ;;
     bandMin <- rasterEditor_optional RasterLayerEditor.minValue ;;
     bandMax <- rasterEditor_optional RasterLayerEditor.maxValue ;;
     detail <- new_object [("colormap", colormap); ("classes", classes);
                           ("palette", palette); ("bandMin", bandMin);
                           ("bandMax", bandMax)] ;;
     msg <- new_object [("type", Js.Str "calculate");
                        ("id", Js.Str "palette");
                        ("detail", detail)] ;;
     model_send msg).

(** The user picks a stretch in the raster editor: [onStretchChanged]
    runs there and its [calculate-band-stats] event reaches
    [calculateBandStats]. *)
Definition stretch_changed (value : string) : Method unit :=
  assign_rasterEditor
    (fun e => inr (RasterLayerEditor.onStretchChanged value e)) ;;
  calculateBandStats.

End LayerEditor.

(** ** [class Container] *)

Module Container.

Definition modelNameToViewName : list (string * string) :=
  [ ("collapsed", "collapsed");
    ("title", "title");
    ("hide_close_button", "hideCloseButton") ].

Definition viewNameToModelName : gmap string string :=
  default ∅
    (reverseMap (map (fun e => (fst e, Some (snd e))) modelNameToViewName)).

(** The body of the [for] loop of [set model(model)]: this class does not
    test the local name. *)
Definition set_model_step : string * string -> M unit unit :=
  fun '(modelKey, widgetKey) =>
    (* Get initial values from the Python model. *)
    value <- model_get modelKey ;;
    set_property widgetKey value ;;
    (* Listen for updates to the model. *)
    model_on ("change:" +:+ modelKey) (SyncProperty modelKey widgetKey).

(** [set model(model)]. *)
Definition set_model : M unit unit :=
  assign_model ;;
  for_of modelNameToViewName set_model_step.

(** The property initialisers of the class. *)
Definition construct : M unit unit :=
  set_property "title" (Js.Str "") ;;
  set_property "collapsed" (Js.Bool false) ;;
  set_property "hideCloseButton" (Js.Bool false).

(** [renderCollapseButtonIcon]: the symbol of the button. *)
Definition renderCollapseButtonIcon : M unit string :=
  collapsed <- get_property "collapsed" ;;
  ret (if Js.truthy collapsed then "&#xf830;" else "&#xf507;").

(** What [render()] hands to its template: the class added to the close
    button, the symbol of the collapse button, the class added to the title
    and the title, and the class added to the container of the content. *)
Record Template := mkTemplate {
  closeButtonClass : string;
  collapseButtonIcon : string;
  titleClass : string;
  titleText : Js.Value;
  containerClass : string
}.

(** [render()]. *)
Definition render : M unit Template :=
  hideCloseButton <- get_property "hideCloseButton" ;;
  icon <- renderCollapseButtonIcon ;;
  title <- get_property "title" ;;
  title' <- get_property "title" ;;
  collapsed <- get_property "collapsed" ;;
  ret (mkTemplate (if Js.truthy hideCloseButton then "hidden" else "")
                  icon
                  (if Js.truthy title then "" else "hidden")
                  title'
                  (if Js.truthy collapsed then "hidden" else "")).

(** [onCollapseToggled], up to the event it dispatches, for which no class
    has a listener. *)
Definition onCollapseToggled : M unit unit :=
  collapsed <- get_property "collapsed" ;;
  set_property "collapsed" (Js.Bool (negb (Js.truthy collapsed))).

Definition updated : list (string * Js.Value) -> M unit unit :=
  updated viewNameToModelName.

(** A click on the collapse button, and Lit's update after it. *)
Definition collapse_clicked : M unit unit :=
  onCollapseToggled ;;
  performUpdate render updated.

End Container.

(** ** [renderSelect] *)

(** An option of a select: a string, or an object with a label and a
    value. *)
Inductive SelectOption :=
| OptionString (option : string)
| OptionObject (label value : string).

(** An [option] element of the template: its [value], whether it is
    [selected], and its text. *)
Record OptionElement := mkOption {
  optValue : string;
  selected : bool;
  optLabel : string
}.

(** [renderSelect(options, value, callback)]: the [option] elements of the
    [select]. *)
Definition renderSelect (options : list SelectOption) (value : string)
  : list OptionElement :=
  map (fun option =>
         match option with
         | OptionString s => mkOption s (String.eqb value s) s
         | OptionObject label optValue =>
             mkOption optValue (String.eqb value optValue) label
         end) options.

(** ** What the binding code is expected to do *)

(** None of the fields raises on the model. *)
Definition serves (fields : list string) (m : AnyModel.t) : bool :=
  forallb (fun f => negb (bool_decide (f ∈ AnyModel.failing m))) fields.

(** The writes [updated] owes the model for a batch: one for each changed
    property that has an entry in the inverse map, to the field the property
    maps to and with the value the property has. *)
Definition pushes (inverse : gmap string string)
    (props : gmap string Js.Value) (changed : list (string * Js.Value))
  : list (string * Js.Value) :=
  omap (fun c =>
          match inverse !! fst c with
          | Some modelProp =>
              Some (modelProp, default Js.Undefined (props !! fst c))
          | None => None
          end) changed.

(** The model after a list of writes. *)
Definition stage_all (sets : list (string * Js.Value)) (m : AnyModel.t)
  : AnyModel.t :=
  foldl (fun m s => AnyModel.stage (fst s) (snd s) m) m sets.

Definition set_calls (sets : list (string * Js.Value)) : list Call :=
  map (fun s => CallSet (fst s) (snd s)) sets.

(** The entries of a key map that [set model] binds: remote field and local
    property, for the entries whose local property is neither null nor
    empty. *)
Definition bound (keymap : list (string * option string))
  : list (string * string) :=
  omap (fun e =>
          match snd e with
          | Some widgetKey =>
              if negb (String.eqb widgetKey "") then Some (fst e, widgetKey)
              else None
          | None => None
          end) keymap.

(** The change event of a field and the subscription [set model] makes for
    an entry. *)
Definition change_event (modelKey : string) : string := "change:" +:+ modelKey.

Definition subscription (e : string * string) : string * Listener :=
  (change_event (fst e), SyncProperty (fst e) (snd e)).

(** The world after [set model] has bound one entry whose read succeeds,
    and after it has bound a list of them. *)
Definition attach_entry {C} (e : string * string) (w : World C) : World C :=
  let value := default Js.Undefined (AnyModel.attributes (model w) !! fst e) in
  let w1 := snd (set_property (snd e) value w) in
  with_model
    (AnyModel.on (change_event (fst e)) (SyncProperty (fst e) (snd e)) (model w1))
    w1.

Definition attach_all {C} (pairs : list (string * string)) (w : World C)
  : World C :=
  foldl (fun w e => attach_entry e w) w pairs.

(** [undefined] and [null]. *)
Definition nullish (v : Js.Value) : bool :=
  match v with
  | Js.Undefined | Js.Null => true
  | _ => false
  end.

(** A node as the notebook sends it: an object whose [children], when it
    has the key, is an array. *)
Definition plain_node (v : Js.Value) : bool :=
  match v with
  | Js.Obj _ fields =>
      match Js.own "children" fields with
      | None | Some (Js.Arr _ _) => true
      | Some _ => false
      end
  | _ => false
  end.

(** A plain node that has a child. *)
Definition has_child (v : Js.Value) : bool :=
  match v with
  | Js.Obj _ fields =>
      match Js.own "children" fields with
      | Some (Js.Arr _ (_ :: _)) => true
      | _ => false
      end
  | _ => false
  end.


(** The properties [render()] of the inspector hands to [renderNode]. *)
Definition info_properties : list string :=
  ["pointInfo"; "pixelInfo"; "objectInfo"].

(** The calls a method makes on the model when it runs in [w]. *)
Definition calls_of {C} (method : M C unit) (w : World C) : list Call :=
  drop (length (AnyModel.calls (model w)))
       (AnyModel.calls (model (snd (method w)))).

Definition is_save_changes (c : Call) : bool :=
  match c with
  | CallSaveChanges => true
  | _ => false
  end.

(** The model from the moment it raises on the given fields. *)
Definition failing_on (fields : gset string) (m : AnyModel.t) : AnyModel.t :=
  AnyModel.mk (AnyModel.attributes m) fields (AnyModel.listeners m)
              (AnyModel.calls m).

(** The checkboxes of the inspector: the handler of each, with the remote
    field and the local property it stands for. *)
Definition checkboxes : list ((bool -> M unit unit) * string * string) :=
  [ (Inspector.onPointCheckboxEvent, "expand_points", "expandPoints");
    (Inspector.onPixelCheckboxEvent, "expand_pixels", "expandPixels");
    (Inspector.onFeatureCheckboxEvent, "expand_objects", "expandObjects") ].

(** The remote fields of the inspector, in the order of its key map. *)
Definition inspector_fields : list string :=
  ["hide_close_button"; "expand_points"; "expand_pixels"; "expand_objects";
   "point_info"; "pixel_info"; "object_info"].

(** The value of an option of a select. *)
Definition option_value (option : SelectOption) : string :=
  match option with
  | OptionString s => s
  | OptionObject _ value => value
  end.

(** ** What the message code is expected to do *)




(** [{ type: <string>, id: <string>, detail?: <payload> }]. *)
Definition command_shape (msg : Js.Value) : bool :=
  match msg with
  | Js.Obj _ ((k1, Js.Str _) :: (k2, Js.Str _) :: rest) =>
      String.eqb k1 "type" && String.eqb k2 "id"
      && match rest with
         | [] => true
         | [(k3, _)] => String.eqb k3 "detail"
         | _ => false
         end
  | _ => false
  end.

Definition is_command (c : Call) : bool :=
  match c with
  | CallSend msg => command_shape msg
  | _ => false
  end.

Definition close_command (oid : nat) : Js.Value :=
  Js.Obj oid [("type", Js.Str "click"); ("id", Js.Str "close")].

Definition band_stats_command (oid : nat) (bands stretch : Js.Value)
  : Js.Value :=
  Js.Obj (S oid)
    [("type", Js.Str "calculate"); ("id", Js.Str "band-stats");
     ("detail", Js.Obj oid [("bands", bands); ("stretch", stretch)])].

(** The layer editor after a list of band-stats replies, each handled in its
    own event. *)
Definition after_replies (replies : list Js.Value) (w : LayerEditor.W)
  : LayerEditor.W :=
  foldl (fun w response => snd (LayerEditor.handleBandstatsResponse response w))
        w replies.

(** ** A notebook *)

(** The model of an inspector in a notebook. *)
Definition notebook_model : AnyModel.t :=
  AnyModel.mk
    (list_to_map
       [ ("hide_close_button", Js.Bool false);
         ("expand_points", Js.Bool false);
         ("expand_pixels", Js.Bool false);
         ("expand_objects", Js.Bool true);
         ("point_info", Js.Obj 1 [("label", Js.Str "Point (1.00, 2.00)")]);
         ("pixel_info", Js.Obj 2 []);
         ("object_info", Js.Obj 3 []) ])
    ∅ [] [].

(** No value of this notebook is converted to a number: a conversion that
    raises, for the updates of the examples. *)
Definition unconverted (_ : Js.Value) : option float := None.

(** The inspector element after its constructor, after [render] and after
    Lit's first update. *)
Definition inspector_created : World unit :=
  snd (Inspector.construct (Inspector.blank notebook_model 10)).

Definition inspector_attached : World unit :=
  snd (Inspector.render (Inspector.blank notebook_model 10)).

Definition inspector_rendered : World unit :=
  snd (performUpdate (Inspector.render_template unconverted) Inspector.updated
         inspector_attached).

(** The rendered inspector once its model raises on [expand_pixels]. *)
Definition inspector_broken : World unit :=
  with_model (failing_on {["expand_pixels"]} (model inspector_rendered))
             inspector_rendered.

(** The inspector after its constructor, on a model that raises on
    [point_info]. *)
Definition inspector_unserved : World unit :=
  with_model (failing_on {["point_info"]} notebook_model) inspector_created.

(** The tree of the objects at a point: the data opens the top node; the
    user has opened [Feature] below it, whose data has no [expanded] key. *)
Definition object_tree : Node.t :=
  Node.mk (Some "Objects")
    (Some [ Node.mk (Some "Feature")
              (Some [Node.mk (Some "id: 1") None Absent None]) Absent None;
            Node.mk (Some "Image") None Absent None ])
    (Flag true) (Some true).

Definition object_tree_opened : Subtree.t :=
  Subtree.click [0] (Subtree.renderChild object_tree).

(** The model of a layer editor, the raster editor the user has set to the
    stretch [sigma-1] for band [B1], and the layer editor on them. *)
Definition layer_model : AnyModel.t :=
  AnyModel.mk
    (list_to_map
       [ ("title", Js.Str "Landsat");
         ("type", Js.Str "raster");
         ("band_names", Js.Arr 1 [Js.Str "B1"; Js.Str "B2"; Js.Str "B3"]);
         ("colormaps", Js.Arr 2 [Js.Str "viridis"]);
         ("children", Js.Arr 3 []) ])
    ∅ [] [].

Definition raster_sigma_1 : RasterLayerEditor.t :=
  RasterLayerEditor.mk (Js.Arr 4 [Js.Str "B1"]) "sigma-1" Js.Undefined
    Js.Undefined true (Some (PaletteEditor.mk (Js.Str ""))).

Definition layer_editor_created : LayerEditor.W :=
  snd (LayerEditor.construct (LayerEditor.blank layer_model 10)).

Definition layer_editor : LayerEditor.W :=
  with_children (Some raster_sigma_1)
    (snd (LayerEditor.set_model layer_editor_created)).

(** The pixel values of a clicked point, as the notebook sends them, and
    the inspector of the notebook after it has received them. *)
Definition pixel_node : Js.Value :=
  Js.Obj 30
    [ ("label", Js.Str "Pixels");
      ("children", Js.Arr 31 [Js.Obj 32 [("label", Js.Str "B1: 0.21")]]);
      ("expanded", Js.Bool true);
      ("topLevel", Js.Bool true) ].

Definition inspector_clicked : World unit :=
  snd (performUpdate (Inspector.render_template unconverted) Inspector.updated
         (snd (Inspector.remote_change "pixel_info" pixel_node
                 inspector_rendered))).

(** The model of a container, and the container after [render] of its
    module and Lit's first update. *)
Definition container_model : AnyModel.t :=
  AnyModel.mk
    (list_to_map
       [ ("collapsed", Js.Bool false);
         ("title", Js.Str "Inspector");
         ("hide_close_button", Js.Bool false) ])
    ∅ [] [].

Definition container : World unit :=
  snd (performUpdate Container.render Container.updated
         (snd ((Container.construct ;; Container.set_model)
                 (mkWorld container_model false ∅ [] tt 10)))).

(** ** Four properties as the specification words them *)

(** The [expanded] flags of the child elements of a node. *)
Definition children_expanded (this : Subtree.t) : list bool :=
  map (fun child => TreeNode.expanded (Subtree.element child))
      (Subtree.childElements this).

(** Tree expansion: toggling a node twice gives back its [expanded] flag,
    and the flags of its children are what they were. *)
Definition toggle_twice_restores (this : Subtree.t) : Prop :=
  let this' := Subtree.toggleExpand (Subtree.toggleExpand this) in
  TreeNode.expanded (Subtree.element this')
  = TreeNode.expanded (Subtree.element this)
  /\ children_expanded this' = children_expanded this.

(** Loop suppression: the write a remote change makes to the view is not
    sent back with [set] for the same field in the update that follows. *)
Definition remote_write_not_echoed
    (w : World unit) (modelKey : string) (value : Js.Value) : Prop :=
  forall (convert : Js.Value -> option float) (n : nat) (w1 w2 : World unit),
    Inspector.remote_change modelKey value w = (inr n, w1) ->
    performUpdate (Inspector.render_template convert) Inspector.updated w1
    = (inr tt, w2) ->
    forall v,
      CallSet modelKey v
      ∉ drop (length (AnyModel.calls (model w))) (AnyModel.calls (model w2)).

(** No duplicate bindings: after a second attach a remote change of a field
    runs at most one callback. *)
Definition single_callback_after_reattach (w : World unit) : Prop :=
  forall (modelKey widgetKey : string) (value : Js.Value) (n : nat),
    (modelKey, Some widgetKey) ∈ Inspector.modelNameToViewName ->
    fst (Inspector.remote_change modelKey value
           (snd (Inspector.set_model (snd (Inspector.set_model w))))) = inr n ->
    n <= 1.

(** Error policy: a field whose write raises is skipped, the batch ends
    normally and the other fields of the batch are written. *)
Definition errors_skip_only_their_field
    (w : World unit) (changed : list (string * Js.Value)) : Prop :=
  exists w' : World unit,
    Inspector.updated changed w = (inr tt, w')
    /\ forall p old f,
         (p, old) ∈ changed ->
         Inspector.viewNameToModelName !! p = Some f ->
         f ∉ AnyModel.failing (model w) ->
         exists v,
           CallSet f v
           ∈ drop (length (AnyModel.calls (model w)))
                  (AnyModel.calls (model w')).

(** ** Theorems: the inspector tree *)

Lemma TreeNode_replaceNode_expanded n' this :
  TreeNode.expanded (TreeNode.replaceNode n' this) =
  match Node.expanded n' with
  | Absent => TreeNode.expanded this
  | Nullish => false
  | Flag b => b
  end.
Proof.
  unfold TreeNode.replaceNode, TreeNode.updated, Node.has_expanded,
    Node.read_expanded.
  rewrite bool_decide_eq_true_2 by set_solver. simpl.
  destruct (Node.expanded n'); reflexivity.
Qed.

Lemma TreeNode_toggle_involutive this :
  TreeNode.toggleExpand (TreeNode.toggleExpand this) = this.
Proof.
  destruct this as [n e]. unfold TreeNode.toggleExpand, TreeNode.set_expanded.
  simpl. rewrite negb_involutive. reflexivity.
Qed.

Lemma TreeNode_create_node n : TreeNode.node (TreeNode.create n) = n.
Proof.
  unfold TreeNode.create, TreeNode.updated. cbn [TreeNode.node].
  destruct (bool_decide _ && true); [|done].
  by destruct (Node.has_expanded n).
Qed.

Lemma TreeNode_create_expanded n :
  TreeNode.expanded (TreeNode.create n)
  = default false (Node.read_expanded n).
Proof.
  unfold TreeNode.create, TreeNode.updated, Node.has_expanded,
    Node.read_expanded.
  rewrite bool_decide_eq_true_2 by set_solver. cbn.
  by destruct (Node.expanded n).
Qed.

(** A new element shows what [renderChildren] says, in new elements. *)
Lemma Subtree_renderChild_unfold child :
  Subtree.renderChild child
  = Subtree.mk (TreeNode.create child)
      (map Subtree.renderChild (TreeNode.renderChildren (TreeNode.create child))).
Proof.
  destruct child as [lbl ch ex tl]. cbn [Subtree.renderChild Node.children].
  f_equal. unfold TreeNode.renderChildren.
  rewrite TreeNode_create_node. cbn [Node.children].
  destruct ch as [children|]; cbn [default].
  - by destruct (_ && _).
  - by destruct (_ && _).
Qed.

Lemma Subtree_toggle_children this :
  Subtree.childElements (Subtree.toggleExpand this)
  = if TreeNode.expanded (Subtree.element this) then []
    else map Subtree.renderChild
           (default [] (Node.children (TreeNode.node (Subtree.element this)))).
Proof.
  unfold Subtree.toggleExpand, TreeNode.renderChildren, TreeNode.hasChildren.
  cbn [Subtree.childElements TreeNode.toggleExpand TreeNode.set_expanded
       TreeNode.expanded TreeNode.node].
  destruct (TreeNode.expanded (Subtree.element this)); [done|].
  cbn [negb andb].
  by destruct (default [] (Node.children (TreeNode.node (Subtree.element this)))).
Qed.

Lemma Subtree_toggle_element this :
  Subtree.element (Subtree.toggleExpand this)
  = TreeNode.toggleExpand (Subtree.element this).
Proof. reflexivity. Qed.

(** A click changes no element but the one clicked and those below it. *)
Lemma Subtree_click_frame p : forall q this,
  ¬ p `prefix_of` q ->
  Subtree.element <$> Subtree.find q (Subtree.click p this)
  = Subtree.element <$> Subtree.find q this.
Proof.
  induction p as [|i p IH]; intros q this Hpq.
  - destruct Hpq. apply prefix_nil.
  - destruct q as [|j q]; [done|].
    cbn [Subtree.click Subtree.find Subtree.childElements].
    destruct (decide (i = j)) as [->|Hij].
    + rewrite list_lookup_alter_eq.
      destruct (Subtree.childElements this !! j) as [child|]; [|done].
      cbn. apply IH. intros Hp. apply Hpq. by apply prefix_cons.
    + by rewrite list_lookup_alter_ne.
Qed.

Lemma Subtree_click_at p : forall this s,
  Subtree.find p this = Some s ->
  Subtree.find p (Subtree.click p this) = Some (Subtree.toggleExpand s).
Proof.
  induction p as [|i p IH]; intros this s Hs.
  - cbn in *. by injection Hs as ->.
  - cbn [Subtree.click Subtree.find Subtree.childElements] in *.
    rewrite list_lookup_alter_eq.
    destruct (Subtree.childElements this !! i) as [child|]; [|done].
    cbn in *. by apply IH.
Qed.

(** C8, as the code has it: toggling a node twice gives back the
    properties of its element, the [expanded] flag and the data; one toggle
    negates the flag.  The child elements are not kept across a toggle: a
    collapsed node has none, and a node that is expanded again gets new
    ones, whose flags are what their data says ([expanded] of the data,
    [false] without it) and not what they were.  A click changes no element
    of the tree but the one clicked and those below it.  When the data of a
    node is replaced by an object that sets [expanded: true] the element is
    expanded, and a new element on such data is expanded and shows all its
    children. *)
Theorem TreeNode_toggle_twice_and_explicit_expanded :
  forall this : Subtree.t,
    let expanded := TreeNode.expanded (Subtree.element this) in
    let children :=
      default [] (Node.children (TreeNode.node (Subtree.element this))) in
    Subtree.element (Subtree.toggleExpand (Subtree.toggleExpand this))
    = Subtree.element this
    /\ TreeNode.expanded (Subtree.element (Subtree.toggleExpand this))
       = negb expanded
    /\ TreeNode.node (Subtree.element (Subtree.toggleExpand this))
       = TreeNode.node (Subtree.element this)
    /\ Subtree.childElements (Subtree.toggleExpand this)
       = (if expanded then [] else map Subtree.renderChild children)
    /\ Subtree.childElements (Subtree.toggleExpand (Subtree.toggleExpand this))
       = (if expanded then map Subtree.renderChild children else [])
    /\ children_expanded (Subtree.toggleExpand (Subtree.toggleExpand this))
       = (if expanded
          then map (fun child => default false (Node.read_expanded child))
                   children
          else [])
    /\ (forall p q : list nat,
          ¬ p `prefix_of` q ->
          Subtree.element <$> Subtree.find q (Subtree.click p this)
          = Subtree.element <$> Subtree.find q this)
    /\ (forall (p : list nat) (s : Subtree.t),
          Subtree.find p this = Some s ->
          Subtree.find p (Subtree.click p this)
          = Some (Subtree.toggleExpand s))
    /\ (forall lbl ch tl,
          TreeNode.expanded
            (TreeNode.replaceNode (Node.mk lbl ch (Flag true) tl)
               (Subtree.element this)) = true)
    /\ (forall lbl ch tl,
          Subtree.renderChild (Node.mk lbl ch (Flag true) tl)
          = Subtree.mk
              (TreeNode.mk (Node.mk lbl ch (Flag true) tl) true)
              (map Subtree.renderChild (default [] ch))).
Proof.
  intros this expanded children.
  assert (Htwice :
    Subtree.childElements (Subtree.toggleExpand (Subtree.toggleExpand this))
    = (if expanded then map Subtree.renderChild children else [])).
  { rewrite Subtree_toggle_children, Subtree_toggle_element.
    subst expanded children. cbn [TreeNode.toggleExpand TreeNode.set_expanded
                                  TreeNode.expanded TreeNode.node].
    by destruct (TreeNode.expanded (Subtree.element this)). }
  split.
  { rewrite !Subtree_toggle_element. apply TreeNode_toggle_involutive. }
  split; [reflexivity|]. split; [reflexivity|].
  split; [apply Subtree_toggle_children|]. split; [exact Htwice|].
  split.
  { unfold children_expanded. rewrite Htwice.
    destruct expanded; [|done]. rewrite map_map. apply map_ext. intros child.
    rewrite Subtree_renderChild_unfold. cbn [Subtree.element].
    apply TreeNode_create_expanded. }
  split; [intros p q; apply Subtree_click_frame|].
  split; [intros p s; apply Subtree_click_at|].
  split; intros lbl ch tl.
  - rewrite TreeNode_replaceNode_expanded. reflexivity.
  - rewrite Subtree_renderChild_unfold.
    assert (Hnew : TreeNode.create (Node.mk lbl ch (Flag true) tl)
                   = TreeNode.mk (Node.mk lbl ch (Flag true) tl) true).
    { unfold TreeNode.create, TreeNode.updated.
      rewrite bool_decide_eq_true_2 by set_solver. reflexivity. }
    rewrite Hnew. unfold TreeNode.renderChildren, TreeNode.hasChildren.
    cbn [TreeNode.expanded TreeNode.node Node.children andb].
    by destruct ch as [[|c l]|].
Qed.

(** In the tree of the objects: a click on [Image] leaves [Feature] as it
    is, and the click on [Feature] is a toggle of that element. *)
Lemma toggle_in_object_tree :
  Subtree.element <$> Subtree.find [0] (Subtree.click [1] object_tree_opened)
  = Subtree.element <$> Subtree.find [0] object_tree_opened
  /\ Subtree.find [0] (Subtree.click [0] object_tree_opened)
     = Some (Subtree.toggleExpand
               (Subtree.mk
                  (TreeNode.mk
                     (Node.mk (Some "Feature")
                        (Some [Node.mk (Some "id: 1") None Absent None])
                        Absent None) true)
                  [Subtree.renderChild
                     (Node.mk (Some "id: 1") None Absent None)])).
Proof.
  split.
  - apply TreeNode_toggle_twice_and_explicit_expanded.
    apply (bool_decide_unpack _). vm_compute. exact I.
  - apply TreeNode_toggle_twice_and_explicit_expanded.
    vm_compute. reflexivity.
Defined.

(** Tree expansion as the specification words it fails in that tree: the
    user has opened [Feature]; after the top node is closed and opened
    again, [Feature] is closed. *)
Lemma parent_toggle_resets_children :
  ~ toggle_twice_restores object_tree_opened.
Proof.
  intros [_ H].
  assert (Hbefore : children_expanded object_tree_opened = [true; false])
    by (vm_compute; reflexivity).
  assert (Hafter :
    children_expanded
      (Subtree.toggleExpand (Subtree.toggleExpand object_tree_opened))
    = [false; false]) by (vm_compute; reflexivity).
  unfold toggle_twice_restores in H. cbn zeta in H.
  rewrite Hbefore, Hafter in H. discriminate H.
Qed.

(** Children are rendered for an expanded node only. *)
Lemma TreeNode_collapsed_renders_no_children this :
  TreeNode.expanded this = false -> TreeNode.renderChildren this = [].
Proof. unfold TreeNode.renderChildren. by intros ->. Qed.

(** C10: when the data of a node is replaced by an object without an
    [expanded] key the element keeps its flag; a replacement that carries
    the key sets the flag to the value of the key, [false] for
    [undefined]/[null]; so the flag differs afterwards only if the new data
    has the key. *)
Theorem TreeNode_replace_without_expanded_keeps_flag :
  forall this : TreeNode.t,
    (forall lbl ch tl,
        TreeNode.expanded (TreeNode.replaceNode (Node.mk lbl ch Absent tl) this)
        = TreeNode.expanded this)
    /\ (forall lbl ch tl b,
        TreeNode.expanded (TreeNode.replaceNode (Node.mk lbl ch (Flag b) tl) this)
        = b)
    /\ (forall lbl ch tl,
        TreeNode.expanded (TreeNode.replaceNode (Node.mk lbl ch Nullish tl) this)
        = false)
    /\ (forall n',
        Node.has_expanded n' = false \/
        TreeNode.expanded (TreeNode.replaceNode n' this)
        = default false (Node.read_expanded n')).
Proof.
  intros this. repeat split; intros;
    try (rewrite TreeNode_replaceNode_expanded; reflexivity).
  unfold Node.has_expanded, Node.read_expanded.
  rewrite TreeNode_replaceNode_expanded.
  destruct (Node.expanded n'); auto.
Qed.

(** ** Lemmas: writes, key maps and runs of the two loops *)

Lemma stage_all_failing sets : forall m,
  AnyModel.failing (stage_all sets m) = AnyModel.failing m.
Proof.
  induction sets as [|s sets IH]; intros m; [done|].
  unfold stage_all in *. cbn [foldl]. by rewrite IH.
Qed.

Lemma stage_all_calls sets : forall m,
  AnyModel.calls (stage_all sets m) = AnyModel.calls m ++ set_calls sets.
Proof.
  induction sets as [|s sets IH]; intros m.
  - by rewrite app_nil_r.
  - unfold stage_all in *. cbn [foldl]. rewrite IH. cbn. by rewrite <- app_assoc.
Qed.

Lemma stage_all_app s1 s2 m :
  stage_all (s1 ++ s2) m = stage_all s2 (stage_all s1 m).
Proof. unfold stage_all. by rewrite foldl_app. Qed.

Lemma serves_spec fields m :
  serves fields m = true <-> forall f, f ∈ fields -> f ∉ AnyModel.failing m.
Proof.
  unfold serves. rewrite forallb_forall. split; intros H f Hf.
  - apply list_elem_of_In in Hf. specialize (H f Hf).
    apply negb_true_iff in H. by apply bool_decide_eq_false in H.
  - apply negb_true_iff, bool_decide_eq_false. apply H.
    by apply list_elem_of_In.
Qed.

Lemma serves_same fields m m' :
  AnyModel.failing m = AnyModel.failing m' -> serves fields m = serves fields m'.
Proof. unfold serves. by intros ->. Qed.

Lemma serves_app f1 f2 m : serves (f1 ++ f2) m = serves f1 m && serves f2 m.
Proof. unfold serves. apply forallb_app. Qed.

Lemma pushes_cons inverse props c changed :
  pushes inverse props (c :: changed)
  = pushes inverse props [c] ++ pushes inverse props changed.
Proof. unfold pushes. exact (omap_app _ [c] changed). Qed.

Lemma pushes_single inverse props p old f :
  inverse !! p = Some f ->
  pushes inverse props [(p, old)] = [(f, default Js.Undefined (props !! p))].
Proof. intros H. unfold pushes. simpl. by rewrite H. Qed.

Lemma pushes_length inverse props changed :
  length (pushes inverse props changed)
  = length (filter (fun c => bool_decide (is_Some (inverse !! fst c))) changed).
Proof.
  induction changed as [|[p old] changed IH]; [done|].
  rewrite (pushes_cons _ _ _ changed), length_app, IH.
  rewrite filter_cons. unfold pushes. cbn.
  destruct (inverse !! p) as [f|]; cbn.
  - rewrite decide_True; [done|]. exact I.
  - rewrite decide_False; [done|]. intros [].
Qed.

Lemma filter_save_set_calls sets : filter is_save_changes (set_calls sets) = [].
Proof. induction sets as [|s sets IH]; [done|]. cbn. exact IH. Qed.

Lemma bound_cons e keymap : bound (e :: keymap) = bound [e] ++ bound keymap.
Proof. unfold bound. exact (omap_app _ [e] keymap). Qed.

Lemma elem_of_bound keymap modelKey widgetKey :
  (modelKey, Some widgetKey) ∈ keymap -> widgetKey ≠ "" ->
  (modelKey, widgetKey) ∈ bound keymap.
Proof.
  intros Hin Hne. unfold bound. apply list_elem_of_omap.
  exists (modelKey, Some widgetKey). split; [done|]. cbn.
  apply String.eqb_neq in Hne. by rewrite Hne.
Qed.

Lemma calls_of_app {C} (method : M C unit) (w : World C) new :
  AnyModel.calls (model (snd (method w))) = AnyModel.calls (model w) ++ new ->
  calls_of method w = new.
Proof. intros H. unfold calls_of. rewrite H. apply drop_app_length. Qed.

Section Runs.
Context {C : Type}.
Implicit Types w : World C.

Lemma with_model_id w : with_model (model w) w = w.
Proof. by destruct w. Qed.

Lemma for_of_app {A} (l1 l2 : list A) (f : A -> M C unit) w :
  for_of (l1 ++ l2) f w =
  match for_of l1 f w with
  | (inr _, w1) => for_of l2 f w1
  | (inl e, w1) => (inl e, w1)
  end.
Proof.
  revert w. induction l1 as [|x l1 IH]; intros w; simpl; [done|].
  unfold bind. destruct (f x w) as [[e|[]] w1]; [done|]. apply IH.
Qed.

(** *** The loop of [updated] *)

Lemma updated_step_run inverse p old w :
  _model w = true ->
  serves (map fst (pushes inverse (properties w) [(p, old)])) (model w)
  = true ->
  updated_step inverse (p, old) w
  = (inr tt,
     with_model
       (stage_all (pushes inverse (properties w) [(p, old)]) (model w)) w).
Proof.
  intros Hm Hs. unfold updated_step, pushes in *. simpl in *.
  destruct (inverse !! p) as [f|]; simpl in *.
  - rewrite andb_true_r in Hs.
    apply negb_true_iff, bool_decide_eq_false in Hs.
    unfold optional_model. rewrite Hm.
    unfold bind, get_property, model_set, AnyModel.set.
    by rewrite decide_False.
  - unfold ret. by rewrite with_model_id.
Qed.

Lemma updated_step_fail inverse p old f w :
  _model w = true -> inverse !! p = Some f ->
  f ∈ AnyModel.failing (model w) ->
  updated_step inverse (p, old) w = (inl (ModelError f), w).
Proof.
  intros Hm Hp Hf. unfold updated_step. rewrite Hp.
  unfold optional_model. rewrite Hm.
  unfold bind, get_property, model_set, AnyModel.set.
  by rewrite decide_True.
Qed.

Lemma updated_loop_run inverse changed : forall w,
  _model w = true ->
  serves (map fst (pushes inverse (properties w) changed)) (model w) = true ->
  for_of changed (updated_step inverse) w
  = (inr tt,
     with_model (stage_all (pushes inverse (properties w) changed) (model w))
                w).
Proof.
  induction changed as [|[p old] changed IH]; intros w Hm Hs.
  - simpl. unfold ret. by rewrite with_model_id.
  - rewrite (pushes_cons _ _ _ changed), map_app, serves_app in Hs.
    apply andb_true_iff in Hs as [Hs1 Hs2].
    cbn [for_of]. unfold bind at 1.
    rewrite updated_step_run by done.
    rewrite IH.
    + by rewrite (pushes_cons _ _ (p, old) changed), stage_all_app.
    + exact Hm.
    + cbn [model properties with_model].
      rewrite <- Hs2. apply serves_same, stage_all_failing.
Qed.

Lemma updated_loop_fail inverse pre p old post f w :
  _model w = true ->
  serves (map fst (pushes inverse (properties w) pre)) (model w) = true ->
  inverse !! p = Some f -> f ∈ AnyModel.failing (model w) ->
  for_of (pre ++ (p, old) :: post) (updated_step inverse) w
  = (inl (ModelError f),
     with_model (stage_all (pushes inverse (properties w) pre) (model w)) w).
Proof.
  intros Hm Hs Hp Hf. rewrite for_of_app, updated_loop_run by done.
  cbn [for_of]. unfold bind. rewrite (updated_step_fail _ _ _ f); try done.
  cbn [model with_model]. by rewrite stage_all_failing.
Qed.

End Runs.

Section Attach.
Context {C : Type}.
Implicit Types w : World C.

(** *** The loop of [set model] *)

Lemma set_model_step_run modelKey widgetKey w :
  serves (map fst (bound [(modelKey, widgetKey)])) (model w) = true ->
  set_model_step (modelKey, widgetKey) w
  = (inr tt, attach_all (bound [(modelKey, widgetKey)]) w).
Proof.
  intros Hs. unfold set_model_step, bound in *. simpl in *.
  destruct widgetKey as [k|]; [|done].
  destruct (negb (String.eqb k "")); [|done]. simpl in *.
  rewrite andb_true_r in Hs. apply negb_true_iff, bool_decide_eq_false in Hs.
  unfold bind, model_get, AnyModel.get. by rewrite decide_False.
Qed.

Lemma set_model_step_fail modelKey widgetKey w :
  widgetKey ≠ "" -> modelKey ∈ AnyModel.failing (model w) ->
  set_model_step (modelKey, Some widgetKey) w
  = (inl (ModelError modelKey), w).
Proof.
  intros Hk Hf. unfold set_model_step.
  apply String.eqb_neq in Hk. rewrite Hk. simpl.
  unfold bind, model_get, AnyModel.get. by rewrite decide_True.
Qed.

Lemma attach_entry_model e w :
  model (attach_entry e w)
  = AnyModel.on (change_event (fst e)) (SyncProperty (fst e) (snd e)) (model w).
Proof. reflexivity. Qed.

Lemma attach_all_cons e pairs w :
  attach_all (e :: pairs) w = attach_all pairs (attach_entry e w).
Proof. reflexivity. Qed.

Lemma attach_all_app p1 p2 w :
  attach_all (p1 ++ p2) w = attach_all p2 (attach_all p1 w).
Proof. unfold attach_all. by rewrite foldl_app. Qed.

(** [set model] stages nothing, breaks nothing and leaves [this._model],
    the children and the identities alone. *)
Lemma attach_all_frame pairs : forall w,
  AnyModel.attributes (model (attach_all pairs w))
  = AnyModel.attributes (model w)
  /\ AnyModel.failing (model (attach_all pairs w)) = AnyModel.failing (model w)
  /\ AnyModel.calls (model (attach_all pairs w)) = AnyModel.calls (model w)
  /\ _model (attach_all pairs w) = _model w
  /\ children (attach_all pairs w) = children w
  /\ next_oid (attach_all pairs w) = next_oid w.
Proof.
  induction pairs as [|e pairs IH]; intros w; [done|].
  rewrite attach_all_cons.
  by destruct (IH (attach_entry e w)) as (-> & -> & -> & -> & -> & ->).
Qed.

(** It adds one subscription for each bound entry, after those there
    are. *)
Lemma attach_all_listeners pairs : forall w,
  AnyModel.listeners (model (attach_all pairs w))
  = AnyModel.listeners (model w) ++ map subscription pairs.
Proof.
  induction pairs as [|e pairs IH]; intros w.
  - by rewrite app_nil_r.
  - rewrite attach_all_cons, IH, attach_entry_model.
    cbn [AnyModel.listeners AnyModel.on map]. by rewrite <- app_assoc.
Qed.

Lemma attach_all_properties_other pairs k : forall w,
  k ∉ map snd pairs ->
  properties (attach_all pairs w) !! k = properties w !! k.
Proof.
  induction pairs as [|e pairs IH]; intros w Hk; [done|].
  cbn [map] in Hk. apply not_elem_of_cons in Hk as [Hne Hk].
  rewrite attach_all_cons, IH by done. cbn. by rewrite lookup_insert_ne.
Qed.

(** When no local property is bound twice, each bound property ends with
    the value of its field. *)
Lemma attach_all_properties pairs : forall w modelKey widgetKey,
  NoDup (map snd pairs) ->
  (modelKey, widgetKey) ∈ pairs ->
  properties (attach_all pairs w) !! widgetKey
  = Some (default Js.Undefined (AnyModel.attributes (model w) !! modelKey)).
Proof.
  induction pairs as [|e pairs IH]; intros w modelKey widgetKey Hnd Hin.
  - by apply elem_of_nil in Hin.
  - cbn [map] in Hnd. apply NoDup_cons in Hnd as [Hnotin Hnd].
    rewrite attach_all_cons.
    apply elem_of_cons in Hin as [<-|Hin].
    + rewrite attach_all_properties_other by done. cbn.
      by rewrite lookup_insert_eq.
    + by rewrite (IH _ modelKey widgetKey).
Qed.

Lemma set_model_loop_run keymap : forall w,
  serves (map fst (bound keymap)) (model w) = true ->
  for_of keymap set_model_step w = (inr tt, attach_all (bound keymap) w).
Proof.
  induction keymap as [|[modelKey widgetKey] keymap IH]; intros w Hs; [done|].
  rewrite (bound_cons _ keymap), map_app, serves_app in Hs.
  apply andb_true_iff in Hs as [Hs1 Hs2].
  cbn [for_of]. unfold bind at 1. rewrite set_model_step_run by done.
  rewrite IH.
  - by rewrite (bound_cons (modelKey, widgetKey) keymap), attach_all_app.
  - rewrite <- Hs2. apply serves_same.
    by destruct (attach_all_frame (bound [(modelKey, widgetKey)]) w)
      as (_ & -> & _).
Qed.

Lemma set_model_loop_fail pre modelKey widgetKey post w :
  serves (map fst (bound pre)) (model w) = true ->
  widgetKey ≠ "" -> modelKey ∈ AnyModel.failing (model w) ->
  for_of (pre ++ (modelKey, Some widgetKey) :: post) set_model_step w
  = (inl (ModelError modelKey), attach_all (bound pre) w).
Proof.
  intros Hs Hk Hf. rewrite for_of_app, set_model_loop_run by done.
  cbn [for_of]. unfold bind. rewrite set_model_step_fail; try done.
  by destruct (attach_all_frame (bound pre) w) as (_ & -> & _).
Qed.

(** The value a bound property has after the loop is the value the model
    returns for its field. *)
Lemma attach_all_synced keymap w modelKey widgetKey :
  NoDup (map snd (bound keymap)) ->
  (modelKey, widgetKey) ∈ bound keymap ->
  serves (map fst (bound keymap)) (model w) = true ->
  exists value,
    fst (model_get modelKey (attach_all (bound keymap) w)) = inr value
    /\ fst (get_property widgetKey (attach_all (bound keymap) w)) = inr value.
Proof.
  intros Hnd Hin Hs.
  destruct (attach_all_frame (bound keymap) w) as (Hattrs & Hfail & _).
  eexists. split.
  - unfold model_get, AnyModel.get. cbn [fst]. rewrite Hattrs, Hfail.
    rewrite decide_False; [reflexivity|].
    apply serves_spec with (f := modelKey) in Hs; [done|].
    apply (list_elem_of_fmap_2 fst) in Hin. exact Hin.
  - unfold get_property. cbn [fst].
    by rewrite (attach_all_properties _ _ modelKey widgetKey).
Qed.

(** *** Events *)

Variable onCustomMessage : Js.Value -> M C unit.

Lemma trigger_single event arg modelKey widgetKey w :
  AnyModel.listeners_for event (model w)
  = [SyncProperty modelKey widgetKey] ->
  serves [modelKey] (model w) = true ->
  trigger onCustomMessage event arg w
  = (inr 1,
     snd (set_property widgetKey
            (default Js.Undefined (AnyModel.attributes (model w) !! modelKey))
            w)).
Proof.
  intros Hl Hs. unfold trigger. rewrite Hl. cbn [for_of length call_listener].
  unfold serves in Hs. cbn [forallb] in Hs. rewrite andb_true_r in Hs.
  apply negb_true_iff, bool_decide_eq_false in Hs.
  unfold bind, model_get, AnyModel.get. by rewrite decide_False.
Qed.

Lemma remote_change_single modelKey widgetKey value w :
  AnyModel.listeners_for (change_event modelKey) (model w)
  = [SyncProperty modelKey widgetKey] ->
  serves [modelKey] (model w) = true ->
  remote_change onCustomMessage modelKey value w
  = (inr 1,
     snd (set_property widgetKey value
            (with_model (AnyModel.store modelKey value (model w)) w))).
Proof.
  intros Hl Hs. unfold remote_change, bind at 1.
  rewrite (trigger_single _ _ modelKey widgetKey); [|exact Hl|exact Hs].
  cbn [model with_model AnyModel.attributes AnyModel.store].
  by rewrite lookup_insert_eq.
Qed.

End Attach.

(** ** Lemmas: the two classes *)

(** The inverse maps of the two classes exist. *)
Lemma viewNameToModelName_built :
  reverseMap Inspector.modelNameToViewName = Some Inspector.viewNameToModelName
  /\ reverseMap LayerEditor.modelNameToViewName
     = Some LayerEditor.viewNameToModelName.
Proof. split; vm_compute; reflexivity. Qed.

Lemma Inspector_entry modelKey widgetKey :
  (modelKey, Some widgetKey) ∈ Inspector.modelNameToViewName ->
  widgetKey ≠ ""
  /\ Inspector.viewNameToModelName !! widgetKey = Some modelKey
  /\ map snd (filter (fun l => String.eqb (fst l) (change_event modelKey))
                (map subscription (bound Inspector.modelNameToViewName)))
     = [SyncProperty modelKey widgetKey].
Proof.
  unfold Inspector.modelNameToViewName.
  rewrite !elem_of_cons, !elem_of_nil. intros H.
  repeat (destruct H as [H|H]; [injection H as -> ->; done|]). done.
Qed.

Lemma LayerEditor_entry modelKey widgetKey :
  (modelKey, Some widgetKey) ∈ LayerEditor.modelNameToViewName ->
  widgetKey ≠ "".
Proof.
  unfold LayerEditor.modelNameToViewName.
  rewrite !elem_of_cons, !elem_of_nil. intros H.
  repeat (destruct H as [H|H]; [try discriminate H; injection H as -> ->; done|]).
  done.
Qed.

Lemma Inspector_bound_NoDup :
  NoDup (map snd (bound Inspector.modelNameToViewName)).
Proof. apply (bool_decide_unpack _). by vm_compute. Qed.

Lemma LayerEditor_bound_NoDup :
  NoDup (map snd (bound LayerEditor.modelNameToViewName)).
Proof. apply (bool_decide_unpack _). by vm_compute. Qed.

Lemma Inspector_set_model_run (w : World unit) :
  serves (map fst (bound Inspector.modelNameToViewName)) (model w) = true ->
  Inspector.set_model w
  = (inr tt,
     attach_all (bound Inspector.modelNameToViewName) (snd (assign_model w))).
Proof.
  intros Hs. unfold Inspector.set_model, set_model_fields, bind at 1.
  cbn [assign_model]. by rewrite set_model_loop_run.
Qed.

Lemma LayerEditor_set_model_run (w : LayerEditor.W) :
  serves (map fst (bound LayerEditor.modelNameToViewName)) (model w) = true ->
  LayerEditor.set_model w
  = (inr tt,
     snd (model_on "msg:custom" CustomMessage
            (attach_all (bound LayerEditor.modelNameToViewName)
                        (snd (assign_model w))))).
Proof.
  intros Hs. unfold LayerEditor.set_model, set_model_fields, bind.
  cbn [assign_model]. rewrite set_model_loop_run by done.
  unfold LayerEditor.registerCustomMessageHandlers, optional_model.
  destruct (attach_all_frame (bound LayerEditor.modelNameToViewName)
              (snd (assign_model w))) as (_ & _ & _ & Hm & _).
  cbn [assign_model snd _model] in Hm. by rewrite Hm.
Qed.

(** A new subscription changes neither what the model returns nor the
    properties. *)
Lemma model_get_after_on {C} key event callback (w : World C) :
  fst (model_get key (snd (model_on event callback w)))
  = fst (model_get key w).
Proof. reflexivity. Qed.

Lemma get_property_after_on {C} name event callback (w : World C) :
  fst (get_property name (snd (model_on event callback w)))
  = fst (get_property name w).
Proof. reflexivity. Qed.

(** *** [render()] of the inspector *)

(** [renderNode] raises nothing but a [TypeError], and raises it on
    [undefined] and [null]; it ends normally on a plain node. *)
Lemma Inspector_renderNode_error convert node e :
  Inspector.renderNode convert node = inl e -> e = TypeError.
Proof.
  unfold Inspector.renderNode, Js.member, Js.exceeds_zero.
  repeat case_match; congruence.
Qed.

Lemma Inspector_renderNode_nullish convert node :
  nullish node = true -> Inspector.renderNode convert node = inl TypeError.
Proof. by destruct node. Qed.

Lemma Inspector_renderNode_plain convert node :
  plain_node node = true ->
  exists shown, Inspector.renderNode convert node = inr shown.
Proof.
  destruct node as [| | | | | |oid fields]; try done.
  unfold plain_node, Inspector.renderNode, Js.member.
  destruct (Js.own "children" fields) as [[| | | | |o items|]|]; try done;
    intros _; cbn.
  - destruct items; eauto.
  - eauto.
Qed.

Lemma Inspector_render_world convert (w : World unit) :
  snd (Inspector.render_template convert w) = w.
Proof.
  unfold Inspector.render_template, bind, get_property, js, throw, ret.
  repeat (destruct (Inspector.renderNode convert _) as [?|?]; [done|]).
  done.
Qed.

Lemma Inspector_render_raises convert (w : World unit) k :
  k ∈ info_properties ->
  nullish (default Js.Undefined (properties w !! k)) = true ->
  fst (Inspector.render_template convert w) = inl TypeError.
Proof.
  unfold info_properties. rewrite !elem_of_cons, elem_of_nil.
  intros Hk Hnull.
  unfold Inspector.render_template, bind, get_property, js, throw, ret.
  destruct (Inspector.renderNode convert
              (default Js.Undefined (properties w !! "pointInfo")))
    as [e|r1] eqn:H1.
  { by rewrite (Inspector_renderNode_error _ _ _ H1). }
  destruct (Inspector.renderNode convert
              (default Js.Undefined (properties w !! "pixelInfo")))
    as [e|r2] eqn:H2.
  { by rewrite (Inspector_renderNode_error _ _ _ H2). }
  destruct (Inspector.renderNode convert
              (default Js.Undefined (properties w !! "objectInfo")))
    as [e|r3] eqn:H3.
  { by rewrite (Inspector_renderNode_error _ _ _ H3). }
  destruct Hk as [->|[->|[->|[]]]];
    rewrite Inspector_renderNode_nullish in * by done; discriminate.
Qed.

Lemma Inspector_render_plain convert (w : World unit) :
  forallb (fun k => plain_node (default Js.Undefined (properties w !! k)))
          info_properties = true ->
  exists template, fst (Inspector.render_template convert w) = inr template.
Proof.
  cbn [forallb info_properties]. rewrite !andb_true_iff.
  intros (H1 & H2 & H3 & _).
  destruct (Inspector_renderNode_plain convert _ H1) as [r1 E1].
  destruct (Inspector_renderNode_plain convert _ H2) as [r2 E2].
  destruct (Inspector_renderNode_plain convert _ H3) as [r3 E3].
  unfold Inspector.render_template, bind, get_property, js, throw, ret.
  rewrite E1, E2, E3. eauto.
Qed.

Lemma bound_app k1 k2 : bound (k1 ++ k2) = bound k1 ++ bound k2.
Proof. unfold bound. apply omap_app. Qed.

(** ** Theorems: property synchronisation *)

(** C3: right after [set model] has attached the view to its model, every
    local property of the key map (the entries with a non-null local
    property) has the value that reading its remote field from the model
    returns: [view[widgetKey] == model.get(modelKey)].  It holds for the
    inspector and for the layer editor, on a model that answers the reads
    of the mapped fields. *)
Theorem initial_sync :
  (forall (w : World unit) (modelKey widgetKey : string),
      (modelKey, Some widgetKey) ∈ Inspector.modelNameToViewName ->
      serves (map fst (bound Inspector.modelNameToViewName)) (model w) = true ->
      exists (w' : World unit) (value : Js.Value),
        Inspector.set_model w = (inr tt, w')
        /\ fst (model_get modelKey w') = inr value
        /\ fst (get_property widgetKey w') = inr value)
  /\ (forall (w : LayerEditor.W) (modelKey widgetKey : string),
      (modelKey, Some widgetKey) ∈ LayerEditor.modelNameToViewName ->
      serves (map fst (bound LayerEditor.modelNameToViewName)) (model w) = true ->
      exists (w' : LayerEditor.W) (value : Js.Value),
        LayerEditor.set_model w = (inr tt, w')
        /\ fst (model_get modelKey w') = inr value
        /\ fst (get_property widgetKey w') = inr value).
Proof.
  split; intros w modelKey widgetKey Hin Hs.
  - destruct (Inspector_entry _ _ Hin) as (Hne & _).
    destruct (attach_all_synced Inspector.modelNameToViewName
                (snd (assign_model w)) modelKey widgetKey)
      as (value & Hget & Hprop).
    + exact Inspector_bound_NoDup.
    + by apply elem_of_bound.
    + done.
    + exists (attach_all (bound Inspector.modelNameToViewName)
                         (snd (assign_model w))), value.
      split; [by apply Inspector_set_model_run|].
      split; [exact Hget|exact Hprop].
  - pose proof (LayerEditor_entry _ _ Hin) as Hne.
    destruct (attach_all_synced LayerEditor.modelNameToViewName
                (snd (assign_model w)) modelKey widgetKey)
      as (value & Hget & Hprop).
    + exact LayerEditor_bound_NoDup.
    + by apply elem_of_bound.
    + done.
    + eexists _, value.
      split; [by apply LayerEditor_set_model_run|].
      rewrite model_get_after_on, get_property_after_on.
      split; [exact Hget|exact Hprop].
Qed.

(** The values the inspector of the notebook shows after [render]: those of
    the model, not the defaults of the class. *)
Example initial_sync_values :
  properties inspector_attached !! "expandObjects" = Some (Js.Bool true)
  /\ properties inspector_attached !! "expandPixels" = Some (Js.Bool false)
  /\ properties inspector_attached !! "pointInfo"
     = Some (Js.Obj 1 [("label", Js.Str "Point (1.00, 2.00)")]).
Proof. vm_compute. repeat split; reflexivity. Qed.

(** The initial sync of [point_info] in the notebook, and of [band_names]
    in the layer editor. *)
Lemma initial_sync_in_notebook :
  (exists (w' : World unit) (value : Js.Value),
      Inspector.set_model inspector_created = (inr tt, w')
      /\ fst (model_get "point_info" w') = inr value
      /\ fst (get_property "pointInfo" w') = inr value)
  /\ (exists (w' : LayerEditor.W) (value : Js.Value),
      LayerEditor.set_model layer_editor_created = (inr tt, w')
      /\ fst (model_get "band_names" w') = inr value
      /\ fst (get_property "bandNames" w') = inr value).
Proof.
  split.
  - apply (proj1 initial_sync).
    + apply (bool_decide_unpack _). vm_compute. exact I.
    + vm_compute. reflexivity.
  - apply (proj2 initial_sync).
    + apply (bool_decide_unpack _). vm_compute. exact I.
    + vm_compute. reflexivity.
Defined.

(** C4: for a batch of changed properties, [updated] issues one [set] for
    each changed property that has an entry in the inverse key map, to the
    field it maps to and with the value the property has, and then one
    [save_changes] for the whole batch: among the calls of the batch there
    is exactly one [save_changes], the last one.  It holds for every widget
    (every inverse map) that has its model and whose writes are answered. *)
Theorem updated_sets_each_property_then_saves_once :
  forall (C : Type) (inverse : gmap string string) (w : World C)
         (changed : list (string * Js.Value)),
    _model w = true ->
    serves (map fst (pushes inverse (properties w) changed)) (model w) = true ->
    exists w' : World C,
      updated inverse changed w = (inr tt, w')
      /\ AnyModel.calls (model w')
         = AnyModel.calls (model w)
           ++ set_calls (pushes inverse (properties w) changed)
           ++ [CallSaveChanges]
      /\ length (pushes inverse (properties w) changed)
         = length (filter (fun c => bool_decide (is_Some (inverse !! fst c)))
                          changed)
      /\ length (filter is_save_changes
                   (drop (length (AnyModel.calls (model w)))
                         (AnyModel.calls (model w')))) = 1.
Proof.
  intros C inverse w changed Hm Hs.
  eexists. split.
  { unfold updated, bind. rewrite updated_loop_run by done.
    unfold optional_model. cbn [_model with_model]. rewrite Hm. reflexivity. }
  cbn [snd model with_model AnyModel.calls AnyModel.save_changes
       model_save_changes].
  rewrite stage_all_calls, <- app_assoc.
  split; [done|]. split; [apply pushes_length|].
  rewrite drop_app_length, filter_app, filter_save_set_calls. done.
Qed.

(** A batch of three changed properties of the rendered inspector, one of
    them ([title]) without an entry in the inverse map. *)
Lemma updated_in_notebook :
  exists w' : World unit,
    updated Inspector.viewNameToModelName
      [("expandPoints", Js.Bool false); ("title", Js.Undefined);
       ("hideCloseButton", Js.Bool false)] inspector_rendered = (inr tt, w')
    /\ AnyModel.calls (model w')
       = AnyModel.calls (model inspector_rendered)
         ++ set_calls
              (pushes Inspector.viewNameToModelName
                 (properties inspector_rendered)
                 [("expandPoints", Js.Bool false); ("title", Js.Undefined);
                  ("hideCloseButton", Js.Bool false)])
         ++ [CallSaveChanges]
    /\ length (pushes Inspector.viewNameToModelName
                 (properties inspector_rendered)
                 [("expandPoints", Js.Bool false); ("title", Js.Undefined);
                  ("hideCloseButton", Js.Bool false)])
       = length (filter
                   (fun c => bool_decide
                               (is_Some (Inspector.viewNameToModelName !! fst c)))
                   [("expandPoints", Js.Bool false); ("title", Js.Undefined);
                    ("hideCloseButton", Js.Bool false)])
    /\ length (filter is_save_changes
                 (drop (length (AnyModel.calls (model inspector_rendered)))
                       (AnyModel.calls (model w')))) = 1.
Proof.
  apply updated_sets_each_property_then_saves_once.
  - vm_compute. reflexivity.
  - vm_compute. reflexivity.
Defined.

(** The calls of that batch. *)
Example updated_in_notebook_calls :
  calls_of (Inspector.updated
              [("expandPoints", Js.Bool false); ("title", Js.Undefined);
               ("hideCloseButton", Js.Bool false)]) inspector_rendered
  = [CallSet "expand_points" (Js.Bool false);
     CallSet "hide_close_button" (Js.Bool false);
     CallSaveChanges].
Proof. vm_compute. reflexivity. Qed.

(** C2, as the code has it: there is no mark for writes of remote origin.
    When the notebook changes a mapped field of an attached inspector, the
    one callback writes the new value to the local property.  If the value
    is the old one, nothing is reported and no call is made.  If it differs,
    Lit updates the element: [render()] is called, and when it ends normally
    [updated] sends the property back: exactly one [set] for that field,
    with the value just read from the model, and one [save_changes].  When
    [render()] raises, [updated] does not run, the error leaves the update
    and no call is made; [render()] raises a [TypeError] when [pointInfo],
    [pixelInfo] or [objectInfo] is [undefined] or [null], and ends normally
    when the three are plain nodes. *)
Theorem remote_change_is_sent_back_once :
  forall (convert : Js.Value -> option float) (w : World unit)
         (modelKey widgetKey : string) (value : Js.Value),
    (modelKey, Some widgetKey) ∈ Inspector.modelNameToViewName ->
    _model w = true ->
    changedProperties w = [] ->
    AnyModel.listeners_for (change_event modelKey) (model w)
    = [SyncProperty modelKey widgetKey] ->
    serves [modelKey] (model w) = true ->
    exists w1 : World unit,
      Inspector.remote_change modelKey value w = (inr 1, w1)
      /\ properties w1 = <[widgetKey := value]> (properties w)
      /\ (let update :=
            performUpdate (Inspector.render_template convert)
              Inspector.updated w1 in
          properties (snd update) = properties w1
          /\ if notEqual value
                  (default Js.Undefined (properties w !! widgetKey))
             then
               match fst (Inspector.render_template convert w1) with
               | inr _ =>
                   fst update = inr tt
                   /\ AnyModel.calls (model (snd update))
                      = AnyModel.calls (model w)
                        ++ [CallSet modelKey value; CallSaveChanges]
               | inl e =>
                   fst update = inl e
                   /\ AnyModel.calls (model (snd update))
                      = AnyModel.calls (model w)
               end
             else
               update = (inr tt, w1)
               /\ AnyModel.calls (model w1) = AnyModel.calls (model w))
      /\ (forall k,
            k ∈ info_properties ->
            nullish (default Js.Undefined (properties w1 !! k)) = true ->
            fst (Inspector.render_template convert w1) = inl TypeError)
      /\ (forallb (fun k => plain_node
                              (default Js.Undefined (properties w1 !! k)))
                  info_properties = true ->
          exists template,
            fst (Inspector.render_template convert w1) = inr template).
Proof.
  intros convert w modelKey widgetKey value Hin Hm Hc Hl Hs.
  destruct (Inspector_entry _ _ Hin) as (_ & Hinv & _).
  pose proof (remote_change_single Inspector.onCustomMessage
                modelKey widgetKey value w Hl Hs) as Hrun.
  unfold set_property in Hrun.
  cbn [snd changedProperties properties model _model children next_oid
       with_model] in Hrun.
  rewrite Hc in Hrun. cbn [map] in Hrun.
  rewrite bool_decide_eq_false_2 in Hrun by apply not_elem_of_nil.
  rewrite andb_true_r in Hrun. cbn [app] in Hrun.
  eexists. split; [exact Hrun|]. split; [reflexivity|].
  split; [|split; [apply Inspector_render_raises|apply Inspector_render_plain]].
  cbn zeta.
  destruct (notEqual value (default Js.Undefined (properties w !! widgetKey))).
  - set (w1 := mkWorld _ _ _ _ _ _).
    unfold performUpdate. cbn [changedProperties w1]. fold w1.
    pose proof (Inspector_render_world convert w1) as Hw.
    destruct (Inspector.render_template convert w1) as [[e|template] w1'].
    + cbn [snd] in Hw. subst w1'. cbn [fst snd]. done.
    + cbn [snd] in Hw. subst w1'. cbn [fst].
      assert (Hupd :
        Inspector.updated
          [(widgetKey, default Js.Undefined (properties w !! widgetKey))]
          (markUpdated w1)
        = (inr tt,
           with_model
             (AnyModel.save_changes
                (stage_all [(modelKey, value)] (model w1)))
             (markUpdated w1))).
      { unfold Inspector.updated, updated, bind.
        rewrite updated_loop_run.
        - unfold optional_model, markUpdated, w1.
          cbn [_model with_model properties model].
          rewrite Hm. unfold model_save_changes.
          cbn [properties model with_model].
          rewrite (pushes_single _ _ _ _ modelKey) by done.
          by rewrite lookup_insert_eq.
        - exact Hm.
        - unfold markUpdated, w1. cbn [properties model with_model].
          rewrite (pushes_single _ _ _ _ modelKey) by done. exact Hs. }
      rewrite Hupd. cbn [fst snd properties model with_model markUpdated].
      split; [reflexivity|]. split; [reflexivity|].
      cbn [AnyModel.calls AnyModel.save_changes]. rewrite stage_all_calls.
      cbn. by rewrite <- app_assoc.
  - unfold performUpdate. cbn [changedProperties snd properties model
                                with_model AnyModel.calls AnyModel.store].
    done.
Qed.

(** The notebook sets [expand_points] of the rendered inspector. *)
Lemma remote_change_in_notebook :
  exists w1 : World unit,
    Inspector.remote_change "expand_points" (Js.Bool true) inspector_rendered
    = (inr 1, w1)
    /\ properties w1
       = <["expandPoints" := Js.Bool true]> (properties inspector_rendered)
    /\ (let update :=
          performUpdate (Inspector.render_template unconverted)
            Inspector.updated w1 in
        properties (snd update) = properties w1
        /\ if notEqual (Js.Bool true)
                (default Js.Undefined
                   (properties inspector_rendered !! "expandPoints"))
           then
             match fst (Inspector.render_template unconverted w1) with
             | inr _ =>
                 fst update = inr tt
                 /\ AnyModel.calls (model (snd update))
                    = AnyModel.calls (model inspector_rendered)
                      ++ [CallSet "expand_points" (Js.Bool true);
                          CallSaveChanges]
             | inl e =>
                 fst update = inl e
                 /\ AnyModel.calls (model (snd update))
                    = AnyModel.calls (model inspector_rendered)
             end
           else
             update = (inr tt, w1)
             /\ AnyModel.calls (model w1)
                = AnyModel.calls (model inspector_rendered))
    /\ (forall k,
          k ∈ info_properties ->
          nullish (default Js.Undefined (properties w1 !! k)) = true ->
          fst (Inspector.render_template unconverted w1) = inl TypeError)
    /\ (forallb (fun k => plain_node
                            (default Js.Undefined (properties w1 !! k)))
                info_properties = true ->
        exists template,
          fst (Inspector.render_template unconverted w1) = inr template).
Proof.
  apply remote_change_is_sent_back_once.
  - apply (bool_decide_unpack _). vm_compute. exact I.
  - vm_compute. reflexivity.
  - vm_compute. reflexivity.
  - vm_compute. reflexivity.
  - vm_compute. reflexivity.
Defined.

(** The calls of that update. *)
Example remote_change_in_notebook_calls :
  let w1 :=
    snd (Inspector.remote_change "expand_points" (Js.Bool true)
           inspector_rendered) in
  let update :=
    performUpdate (Inspector.render_template unconverted) Inspector.updated in
  fst (update w1) = inr tt
  /\ calls_of update w1
     = [CallSet "expand_points" (Js.Bool true); CallSaveChanges].
Proof. vm_compute. split; reflexivity. Qed.

(** The notebook sets [point_info] to [null]: [render()] raises in
    [renderNode], and the change is not sent back. *)
Example remote_null_stops_the_update :
  let w1 :=
    snd (Inspector.remote_change "point_info" Js.Null inspector_rendered) in
  let update :=
    performUpdate (Inspector.render_template unconverted) Inspector.updated in
  properties w1 !! "pointInfo" = Some Js.Null
  /\ fst (update w1) = inl TypeError
  /\ calls_of update w1 = []
  /\ changedProperties (snd (update w1)) = [].
Proof. vm_compute. repeat split; reflexivity. Qed.

(** Loop suppression as the specification words it fails in the notebook:
    the change of [expand_points] to [true] comes back as
    [set("expand_points", true)]. *)
Lemma remote_write_is_echoed :
  ~ remote_write_not_echoed inspector_rendered "expand_points" (Js.Bool true).
Proof.
  intros H.
  set (r1 := Inspector.remote_change "expand_points" (Js.Bool true)
               inspector_rendered).
  set (r2 := performUpdate (Inspector.render_template unconverted)
               Inspector.updated (snd r1)).
  assert (H1 : r1 = (inr 1, snd r1)) by (vm_compute; reflexivity).
  assert (H2 : r2 = (inr tt, snd r2)) by (vm_compute; reflexivity).
  apply (H unconverted 1 (snd r1) (snd r2) H1 H2 (Js.Bool true)).
  vm_compute. apply list_elem_of_here.
Qed.

(** The first update of the inspector of the notebook is the same for
    every conversion: none of its values is converted. *)
Example first_update_needs_no_conversion :
  forall convert,
    performUpdate (Inspector.render_template convert) Inspector.updated
      inspector_attached
    = (inr tt, inspector_rendered).
Proof. intros convert. vm_compute. reflexivity. Qed.

(** C5, as the code has it: [set model] neither rejects a second attach nor
    removes anything.  Each attach adds exactly one subscription for every
    mapped field, after those the model has; so a view attached once to a
    model without subscriptions for the field runs exactly one callback when
    the notebook changes the field. *)
Theorem attach_adds_one_subscription :
  forall (w : World unit) (modelKey widgetKey : string),
    (modelKey, Some widgetKey) ∈ Inspector.modelNameToViewName ->
    serves (map fst (bound Inspector.modelNameToViewName)) (model w) = true ->
    exists w' : World unit,
      Inspector.set_model w = (inr tt, w')
      /\ AnyModel.listeners_for (change_event modelKey) (model w')
         = AnyModel.listeners_for (change_event modelKey) (model w)
           ++ [SyncProperty modelKey widgetKey]
      /\ (AnyModel.listeners_for (change_event modelKey) (model w) = [] ->
          forall value,
            fst (Inspector.remote_change modelKey value w') = inr 1).
Proof.
  intros w modelKey widgetKey Hin Hs.
  destruct (Inspector_entry _ _ Hin) as (Hne & _ & Hsub).
  pose proof (elem_of_bound _ _ _ Hin Hne) as Hb.
  eexists. split; [by apply Inspector_set_model_run|].
  set (w' := attach_all _ _).
  assert (Hl : AnyModel.listeners_for (change_event modelKey) (model w')
               = AnyModel.listeners_for (change_event modelKey) (model w)
                 ++ [SyncProperty modelKey widgetKey]).
  { unfold AnyModel.listeners_for, w'. rewrite attach_all_listeners.
    rewrite filter_app, map_app. by rewrite Hsub. }
  split; [exact Hl|].
  intros Hnone value. rewrite Hnone in Hl. cbn [app] in Hl.
  unfold Inspector.remote_change.
  rewrite (remote_change_single _ modelKey widgetKey); [done|exact Hl|].
  destruct (attach_all_frame (bound Inspector.modelNameToViewName)
              (snd (assign_model w))) as (_ & Hfail & _).
  apply serves_spec. intros f Hf. apply list_elem_of_singleton in Hf as ->.
  fold w' in Hfail. rewrite Hfail.
  apply serves_spec with (f := modelKey) in Hs; [done|].
  apply (list_elem_of_fmap_2 fst) in Hb. exact Hb.
Qed.

(** The first attach in the notebook. *)
Lemma attach_in_notebook :
  exists w' : World unit,
    Inspector.set_model inspector_created = (inr tt, w')
    /\ AnyModel.listeners_for (change_event "expand_points") (model w')
       = AnyModel.listeners_for (change_event "expand_points")
           (model inspector_created)
         ++ [SyncProperty "expand_points" "expandPoints"]
    /\ (AnyModel.listeners_for (change_event "expand_points")
          (model inspector_created) = [] ->
        forall value,
          fst (Inspector.remote_change "expand_points" value w') = inr 1).
Proof.
  apply attach_adds_one_subscription.
  - apply (bool_decide_unpack _). vm_compute. exact I.
  - vm_compute. reflexivity.
Defined.

(** "No duplicate bindings" as the specification words it fails in the
    notebook: after two attaches a change of [expand_points] runs two
    callbacks. *)
Lemma reattach_doubles_the_callbacks :
  ~ single_callback_after_reattach inspector_created.
Proof.
  intros H.
  assert (Hin : ("expand_points", Some "expandPoints")
                ∈ Inspector.modelNameToViewName).
  { apply (bool_decide_unpack _). vm_compute. exact I. }
  specialize (H "expand_points" "expandPoints" (Js.Bool true) 2 Hin).
  assert (2 <= 1) as Hle; [|lia].
  apply H. vm_compute. reflexivity.
Qed.

(** C7, as the code has it: nothing catches an error of [get] or [set].
    The pass stops at the field that raises and the error leaves the pass;
    what was done for the fields before it stays done, the failing field and
    the fields after it are not processed, and [updated] does not reach
    [save_changes].  First for [updated]: the [set] calls of the properties
    before the failing one are the calls made.  Then for [set model]: the
    fields before the failing one have their subscription and their
    property holds the value of the model; no other subscription is made,
    no other property is assigned and no call is made. *)
Theorem sync_pass_stops_at_the_failing_field :
  (forall (w : World unit) (pre post : list (string * Js.Value))
          (p : string) (old : Js.Value) (f : string),
      _model w = true ->
      Inspector.viewNameToModelName !! p = Some f ->
      f ∈ AnyModel.failing (model w) ->
      serves (map fst
                (pushes Inspector.viewNameToModelName (properties w) pre))
             (model w) = true ->
      exists w' : World unit,
        Inspector.updated (pre ++ (p, old) :: post) w
        = (inl (ModelError f), w')
        /\ AnyModel.calls (model w')
           = AnyModel.calls (model w)
             ++ set_calls
                  (pushes Inspector.viewNameToModelName (properties w) pre))
  /\ (forall (w : World unit) (pre post : list (string * option string))
             (modelKey widgetKey : string),
      Inspector.modelNameToViewName
      = pre ++ (modelKey, Some widgetKey) :: post ->
      modelKey ∈ AnyModel.failing (model w) ->
      serves (map fst (bound pre)) (model w) = true ->
      exists w' : World unit,
        Inspector.set_model w = (inl (ModelError modelKey), w')
        /\ AnyModel.listeners (model w')
           = AnyModel.listeners (model w) ++ map subscription (bound pre)
        /\ (forall field property,
               (field, property) ∈ bound pre ->
               properties w' !! property
               = Some (default Js.Undefined
                         (AnyModel.attributes (model w) !! field)))
        /\ (forall k, k ∉ map snd (bound pre) ->
                      properties w' !! k = properties w !! k)
        /\ AnyModel.calls (model w') = AnyModel.calls (model w)).
Proof.
  split.
  - intros w pre post p old f Hm Hp Hf Hs. eexists. split.
    + unfold Inspector.updated, updated, bind.
      by rewrite (updated_loop_fail _ _ _ _ _ f).
    + cbn [snd model with_model]. by rewrite stage_all_calls.
  - intros w pre post modelKey widgetKey Hk Hf Hs.
    assert (Hne : widgetKey ≠ "").
    { apply (Inspector_entry modelKey). rewrite Hk. set_solver. }
    assert (Hnd : NoDup (map snd (bound pre))).
    { pose proof Inspector_bound_NoDup as H.
      rewrite Hk, bound_app, map_app in H. by apply NoDup_app in H as [H _]. }
    eexists. split.
    + unfold Inspector.set_model, set_model_fields, bind at 1.
      cbn [assign_model]. rewrite Hk.
      by rewrite set_model_loop_fail.
    + cbn [snd]. split; [by rewrite attach_all_listeners|].
      split.
      { intros field property Hb.
        by rewrite (attach_all_properties _ _ field property). }
      split.
      { intros k Hnot. by rewrite attach_all_properties_other. }
      by destruct (attach_all_frame (bound pre)
                     (mkWorld (model w) true (properties w)
                              (changedProperties w) (children w) (next_oid w)))
        as (_ & _ & -> & _).
Qed.

(** The model of the notebook raises on [expand_pixels] when a batch of
    three changed properties is sent; and it raises on [point_info] when the
    inspector is attached. *)
Lemma failing_field_in_notebook :
  (exists w' : World unit,
      Inspector.updated
        ([("expandPoints", Js.Bool false)]
           ++ ("expandPixels", Js.Bool false)
           :: [("expandObjects", Js.Bool true)])
        inspector_broken
      = (inl (ModelError "expand_pixels"), w')
      /\ AnyModel.calls (model w')
         = AnyModel.calls (model inspector_broken)
           ++ set_calls
                (pushes Inspector.viewNameToModelName
                   (properties inspector_broken)
                   [("expandPoints", Js.Bool false)]))
  /\ (exists w' : World unit,
      Inspector.set_model inspector_unserved
      = (inl (ModelError "point_info"), w')
      /\ AnyModel.listeners (model w')
         = AnyModel.listeners (model inspector_unserved)
           ++ map subscription
                (bound [("hide_close_button", Some "hideCloseButton");
                        ("expand_points", Some "expandPoints");
                        ("expand_pixels", Some "expandPixels");
                        ("expand_objects", Some "expandObjects")])
      /\ (forall field property,
             (field, property)
             ∈ bound [("hide_close_button", Some "hideCloseButton");
                      ("expand_points", Some "expandPoints");
                      ("expand_pixels", Some "expandPixels");
                      ("expand_objects", Some "expandObjects")] ->
             properties w' !! property
             = Some (default Js.Undefined
                       (AnyModel.attributes (model inspector_unserved)
                        !! field)))
      /\ (forall k,
             k ∉ map snd
                   (bound [("hide_close_button", Some "hideCloseButton");
                           ("expand_points", Some "expandPoints");
                           ("expand_pixels", Some "expandPixels");
                           ("expand_objects", Some "expandObjects")]) ->
             properties w' !! k = properties inspector_unserved !! k)
      /\ AnyModel.calls (model w') = AnyModel.calls (model inspector_unserved)).
Proof.
  split.
  - apply (proj1 sync_pass_stops_at_the_failing_field).
    + vm_compute. reflexivity.
    + vm_compute. reflexivity.
    + apply (bool_decide_unpack _). vm_compute. exact I.
    + vm_compute. reflexivity.
  - apply (proj2 sync_pass_stops_at_the_failing_field
             _ _ [("pixel_info", Some "pixelInfo");
                  ("object_info", Some "objectInfo")]
             _ "pointInfo").
    + reflexivity.
    + apply (bool_decide_unpack _). vm_compute. exact I.
    + vm_compute. reflexivity.
Defined.

(** The error policy as the specification words it fails there: the batch
    does not end normally. *)
Lemma error_aborts_the_batch :
  ~ errors_skip_only_their_field inspector_broken
      [("expandPixels", Js.Bool false); ("expandObjects", Js.Bool true)].
Proof.
  intros (w' & Hrun & _).
  assert (Hfst : fst (Inspector.updated
                        [("expandPixels", Js.Bool false);
                         ("expandObjects", Js.Bool true)]
                        inspector_broken)
                 = inl (ModelError "expand_pixels")).
  { vm_compute. reflexivity. }
  rewrite Hrun in Hfst. discriminate Hfst.
Qed.

(** What that batch and that attach leave behind: no call at all; the
    subscriptions of the four fields before [point_info]; [expandPixels] and
    [expandObjects] with the values of the model, and [pointInfo] with the
    empty object of the constructor. *)
Example error_aborts_the_batch_calls :
  let w' := snd (Inspector.set_model inspector_unserved) in
  calls_of (Inspector.updated
              [("expandPixels", Js.Bool false); ("expandObjects", Js.Bool true)])
           inspector_broken = []
  /\ map fst (AnyModel.listeners (model w'))
     = ["change:hide_close_button"; "change:expand_points";
        "change:expand_pixels"; "change:expand_objects"]
  /\ properties inspector_unserved !! "expandPixels" = Some (Js.Bool true)
  /\ properties w' !! "expandPixels" = Some (Js.Bool false)
  /\ properties w' !! "expandObjects" = Some (Js.Bool true)
  /\ properties w' !! "pointInfo" = Some (Js.Obj 10 []).
Proof. vm_compute. repeat split; reflexivity. Qed.

(** ** Theorems: custom messages *)


(** C6: the [msg:custom] callback looks for the key [bandstats] first and
    hands the message to [handleBandstatsResponse]; otherwise it looks for
    the key [palette] and hands the message to [handlePaletteResponse]; a
    message with neither key is ignored: no error and the same world.  A
    custom message the model delivers to an attached layer editor reaches
    that callback, once. *)
Theorem custom_message_dispatch :
  forall (oid : nat) (fields : list (string * Js.Value)) (w : LayerEditor.W),
    let msg := Js.Obj oid fields in
    LayerEditor.onCustomMessage msg w
    = (if bool_decide (is_Some (Js.own "bandstats" fields))
       then LayerEditor.handleBandstatsResponse msg w
       else if bool_decide (is_Some (Js.own "palette" fields))
            then LayerEditor.handlePaletteResponse msg w
            else (inr tt, w))
    /\ (AnyModel.listeners_for "msg:custom" (model w) = [CustomMessage] ->
        LayerEditor.custom_message msg w
        = match LayerEditor.onCustomMessage msg w with
          | (inr _, w') => (inr 1, w')
          | (inl e, w') => (inl e, w')
          end).
Proof.
  intros oid fields w msg. subst msg. split.
  - unfold LayerEditor.onCustomMessage, bind. cbn [Js.has_property js ret].
    destruct (bool_decide (is_Some (Js.own "bandstats" fields))); [reflexivity|].
    destruct (bool_decide (is_Some (Js.own "palette" fields))); reflexivity.
  - intros Hl.
    unfold LayerEditor.custom_message, custom_message, trigger. rewrite Hl.
    cbn [for_of call_listener length]. unfold bind.
    destruct (LayerEditor.onCustomMessage (Js.Obj oid fields) w)
      as [[e|[]] w']; reflexivity.
Qed.

(** A message with neither key reaches the attached layer editor. *)
Lemma custom_message_in_notebook :
  LayerEditor.custom_message (Js.Obj 7 [("assets", Js.Arr 8 [])]) layer_editor
  = match LayerEditor.onCustomMessage (Js.Obj 7 [("assets", Js.Arr 8 [])])
            layer_editor with
    | (inr _, w') => (inr 1, w')
    | (inl e, w') => (inl e, w')
    end.
Proof.
  apply (proj2 (custom_message_dispatch 7 [("assets", Js.Arr 8 [])]
                  layer_editor)).
  vm_compute. reflexivity.
Defined.

(** Such a message changes nothing; a primitive in place of a message makes
    the [in] test itself raise. *)
Example custom_message_ignored :
  LayerEditor.custom_message (Js.Obj 7 [("assets", Js.Arr 8 [])]) layer_editor
  = (inr 1, layer_editor)
  /\ fst (LayerEditor.onCustomMessage (Js.Str "bandstats") layer_editor)
     = inl TypeError.
Proof. split; vm_compute; reflexivity. Qed.

Lemma calls_of_onCloseButtonClicked {C} (w : World C) :
  calls_of onCloseButtonClicked w
  = if _model w then [CallSend (close_command (next_oid w))] else [].
Proof.
  apply calls_of_app. unfold onCloseButtonClicked, optional_model.
  destruct (_model w); cbn; [reflexivity|by rewrite app_nil_r].
Qed.

Lemma calls_of_calculateBandStats (w : LayerEditor.W) :
  calls_of LayerEditor.calculateBandStats w
  = if _model w
    then [CallSend
            (band_stats_command (next_oid w)
               (match children w with
                | Some editor => RasterLayerEditor.selectedBands editor
                | None => Js.Undefined
                end)
               (match children w with
                | Some editor => Js.Str (RasterLayerEditor.stretch editor)
                | None => Js.Undefined
                end))]
    else [].
Proof.
  apply calls_of_app. unfold LayerEditor.calculateBandStats, optional_model.
  destruct (_model w); cbn; [reflexivity|by rewrite app_nil_r].
Qed.

Lemma calls_of_onPaletteChanged detail (w : LayerEditor.W) :
  Forall (fun c => is_command c = true)
         (calls_of (LayerEditor.onPaletteChanged detail) w).
Proof.
  unfold calls_of, LayerEditor.onPaletteChanged, optional_model.
  destruct (_model w); cbn; [|rewrite drop_all; constructor].
  destruct detail; cbn; rewrite ?drop_all; try constructor;
    rewrite drop_app_length; repeat constructor.
Qed.

Lemma calls_of_stretch_changed value (w : LayerEditor.W) :
  calls_of (LayerEditor.stretch_changed value) w
  = match children w with
    | Some editor =>
        if _model w
        then [CallSend
                (band_stats_command (next_oid w)
                   (RasterLayerEditor.selectedBands editor) (Js.Str value))]
        else []
    | None => []
    end.
Proof.
  apply calls_of_app.
  unfold LayerEditor.stretch_changed, bind, LayerEditor.assign_rasterEditor.
  destruct (children w) as [editor|] eqn:Hc; [|by rewrite app_nil_r].
  unfold LayerEditor.calculateBandStats, optional_model.
  cbn [_model with_children].
  destruct (_model w); cbn; [|by rewrite app_nil_r].
  unfold RasterLayerEditor.onStretchChanged.
  destruct (String.eqb value "custom"); reflexivity.
Qed.

(** C9: every message the widgets send ([onCloseButtonClicked] of the
    inspector and of the layer editor, [calculateBandStats],
    [onPaletteChanged], also when the stretch select triggers
    [calculateBandStats]) is an object [{ type: <string>, id: <string> }],
    with a third key [detail] or without; and the [detail] of the
    band-stats command holds the bands selected and the stretch in effect in
    the raster editor when the command is sent: after the user has picked a
    stretch it is the stretch just picked. *)
Theorem commands_have_shape_and_context :
  forall (inspector : World unit) (w : LayerEditor.W)
         (editor : RasterLayerEditor.t) (detail : Js.Value) (value : string),
    Forall (fun c => is_command c = true)
           (calls_of onCloseButtonClicked inspector)
    /\ Forall (fun c => is_command c = true) (calls_of onCloseButtonClicked w)
    /\ Forall (fun c => is_command c = true)
              (calls_of LayerEditor.calculateBandStats w)
    /\ Forall (fun c => is_command c = true)
              (calls_of (LayerEditor.onPaletteChanged detail) w)
    /\ Forall (fun c => is_command c = true)
              (calls_of (LayerEditor.stretch_changed value) w)
    /\ calls_of LayerEditor.calculateBandStats (with_children (Some editor) w)
       = (if _model w
          then [CallSend
                  (band_stats_command (next_oid w)
                     (RasterLayerEditor.selectedBands editor)
                     (Js.Str (RasterLayerEditor.stretch editor)))]
          else [])
    /\ calls_of (LayerEditor.stretch_changed value)
                (with_children (Some editor) w)
       = (if _model w
          then [CallSend
                  (band_stats_command (next_oid w)
                     (RasterLayerEditor.selectedBands editor) (Js.Str value))]
          else []).
Proof.
  intros inspector w editor detail value.
  split; [|split; [|split; [|split; [|split; [|split]]]]].
  - rewrite calls_of_onCloseButtonClicked.
    destruct (_model inspector); repeat constructor.
  - rewrite calls_of_onCloseButtonClicked.
    destruct (_model w); repeat constructor.
  - rewrite calls_of_calculateBandStats.
    destruct (_model w); [|constructor].
    destruct (children w); repeat constructor.
  - apply calls_of_onPaletteChanged.
  - rewrite calls_of_stretch_changed.
    destruct (children w); [|constructor].
    destruct (_model w); repeat constructor.
  - by rewrite calls_of_calculateBandStats.
  - by rewrite calls_of_stretch_changed.
Qed.

(** ** The scenario of the specification *)

(** The layer editor shows the band names of the model.  The user has the
    stretch [sigma-1]; its command carries that stretch; the reply for
    [sigma-1] sets the range to 0 and 255.  The user switches to [custom];
    a late reply for [sigma-2] is dropped. *)
Example layer_editor_scenario :
  let reply1 :=
    Js.Obj 20 [("bandstats",
                Js.Obj 21 [("stretch", Js.Str "sigma-1");
                           ("min", Js.Num 0%float); ("max", Js.Num 255%float)])] in
  let reply2 :=
    Js.Obj 22 [("bandstats",
                Js.Obj 23 [("stretch", Js.Str "sigma-2");
                           ("min", Js.Num 10%float); ("max", Js.Num 200%float)])] in
  let w1 := snd (LayerEditor.stretch_changed "sigma-1" layer_editor) in
  let w2 := snd (LayerEditor.custom_message reply1 w1) in
  let w3 := snd (LayerEditor.stretch_changed "custom" w2) in
  let w4 := snd (LayerEditor.custom_message reply2 w3) in
  properties layer_editor !! "bandNames"
  = Some (Js.Arr 1 [Js.Str "B1"; Js.Str "B2"; Js.Str "B3"])
  /\ calls_of (LayerEditor.stretch_changed "sigma-1") layer_editor
     = [CallSend (band_stats_command 12 (Js.Arr 4 [Js.Str "B1"])
                    (Js.Str "sigma-1"))]
  /\ option_map RasterLayerEditor.minValue (children w2)
     = Some (Js.Num 0%float)
  /\ option_map RasterLayerEditor.maxValue (children w2)
     = Some (Js.Num 255%float)
  /\ w4 = w3.
Proof. vm_compute. repeat split; reflexivity. Qed.

(** A palette reply reaches the palette editor of the raster editor; while
    nothing is rendered yet the assignment raises. *)
Example palette_reply :
  let reply :=
    Js.Obj 20 [("palette", Js.Obj 21 [("palette", Js.Str "440154, fde725")])] in
  option_map RasterLayerEditor.paletteEditor
    (children (snd (LayerEditor.custom_message reply layer_editor)))
  = Some (Some (PaletteEditor.mk (Js.Str "440154, fde725")))
  /\ fst (LayerEditor.custom_message reply (with_children None layer_editor))
     = inl TypeError.
Proof. vm_compute. split; reflexivity. Qed.

(** ** More of the inspector *)

(** X1: what a click on a row changes in the row.  The bullet changes
    exactly for a top-level node and for a node with children, the icon
    exactly for a node with children that is not top-level; a node without
    children shows no child in either state, top-level or not. *)
Theorem toggle_changes_what_is_shown :
  forall this : TreeNode.t,
    let toggled := TreeNode.toggleExpand this in
    (TreeNode.renderBullet toggled = TreeNode.renderBullet this
     <-> TreeNode.topLevel this = false /\ TreeNode.hasChildren this = false)
    /\ (TreeNode.renderIcon toggled = TreeNode.renderIcon this
        <-> TreeNode.topLevel this = true \/ TreeNode.hasChildren this = false)
    /\ (TreeNode.hasChildren this = false ->
        TreeNode.renderChildren this = []
        /\ TreeNode.renderChildren toggled = []).
Proof.
  intros [n e]. cbn zeta.
  unfold TreeNode.renderBullet, TreeNode.renderIcon, TreeNode.topLevel,
    TreeNode.renderChildren, TreeNode.toggleExpand, TreeNode.set_expanded,
    TreeNode.hasChildren.
  cbn [TreeNode.node TreeNode.expanded].
  destruct (default false (Node.topLevel n));
    destruct (Nat.ltb 0 (length (default [] (Node.children n))));
    destruct e; cbn; repeat split;
    try (intros; discriminate); try (intros [? ?]; discriminate);
    try (intros [?|?]; discriminate); auto.
Qed.

(** A leaf row shows no child before and after a click. *)
Lemma toggle_on_a_leaf :
  let leaf := TreeNode.mk (Node.mk (Some "NDVI: 0.42") None Absent None) false in
  TreeNode.renderChildren leaf = []
  /\ TreeNode.renderChildren (TreeNode.toggleExpand leaf) = [].
Proof.
  apply (proj2 (proj2 (toggle_changes_what_is_shown
                         (TreeNode.mk (Node.mk (Some "NDVI: 0.42") None Absent None)
                                      false)))).
  reflexivity.
Defined.

Lemma Inspector_renderNode_has_child convert node :
  plain_node node = true ->
  Inspector.renderNode convert node
  = inr (if has_child node then Some node else None).
Proof.
  destruct node as [| | | | | |oid fields]; try done.
  unfold plain_node, has_child, Inspector.renderNode, Js.member.
  destruct (Js.own "children" fields) as [[| | | | |o items|]|]; try done;
    intros _; cbn.
  by destruct items.
Qed.

(** X2: what [render()] of the inspector shows when [pointInfo],
    [pixelInfo] and [objectInfo] are plain nodes.  It ends normally and
    changes nothing; the three checkboxes show the three [expand]
    properties; and the object browser holds a tree for exactly the nodes
    that have a child, in the order point, pixel, object.  No value is
    converted to a number. *)
Theorem render_shows_the_nodes_with_children :
  forall (convert : Js.Value -> option float) (w : World unit),
    let property name := default Js.Undefined (properties w !! name) in
    forallb (fun k => plain_node (property k)) info_properties = true ->
    Inspector.render_template convert w
    = (inr (Inspector.mkTemplate
              (property "hideCloseButton")
              [property "expandPoints"; property "expandPixels";
               property "expandObjects"]
              (filter (fun node => has_child node = true)
                      [property "pointInfo"; property "pixelInfo";
                       property "objectInfo"])),
       w).
Proof.
  intros convert w. cbn zeta. cbn [forallb info_properties].
  set (point := default Js.Undefined (properties w !! "pointInfo")).
  set (pixel := default Js.Undefined (properties w !! "pixelInfo")).
  set (object := default Js.Undefined (properties w !! "objectInfo")).
  rewrite !andb_true_iff. intros (H1 & H2 & H3 & _).
  unfold Inspector.render_template, bind, get_property, js, throw, ret.
  fold point. fold pixel. fold object.
  rewrite !Inspector_renderNode_has_child by done.
  rewrite !filter_cons, filter_nil.
  subst point pixel object.
  destruct (has_child (default Js.Undefined (properties w !! "pointInfo")));
    destruct (has_child (default Js.Undefined (properties w !! "pixelInfo")));
    destruct (has_child (default Js.Undefined (properties w !! "objectInfo")));
    repeat case_decide; done.
Qed.

(** The inspector of the notebook after a click on the map. *)
Lemma render_after_a_click :
  Inspector.render_template unconverted inspector_clicked
  = (inr (Inspector.mkTemplate
            (default Js.Undefined (properties inspector_clicked !! "hideCloseButton"))
            [default Js.Undefined (properties inspector_clicked !! "expandPoints");
             default Js.Undefined (properties inspector_clicked !! "expandPixels");
             default Js.Undefined (properties inspector_clicked !! "expandObjects")]
            (filter (fun node => has_child node = true)
                    [default Js.Undefined (properties inspector_clicked !! "pointInfo");
                     default Js.Undefined (properties inspector_clicked !! "pixelInfo");
                     default Js.Undefined (properties inspector_clicked !! "objectInfo")])),
     inspector_clicked).
Proof.
  apply render_shows_the_nodes_with_children. vm_compute. reflexivity.
Defined.

(** It shows the tree of the pixel values only. *)
Example render_after_a_click_shows :
  option_map Inspector.objectBrowser
    (match fst (Inspector.render_template unconverted inspector_clicked) with
     | inr template => Some template
     | inl _ => None
     end)
  = Some [pixel_node].
Proof. vm_compute. reflexivity. Qed.

(** A reactive property of the inspector is assigned and Lit updates the
    element, [render()] ending normally: the value goes to the model when
    it is a change. *)
Lemma Inspector_set_then_update convert (w : World unit) name field value :
  _model w = true ->
  changedProperties w = [] ->
  Inspector.viewNameToModelName !! name = Some field ->
  serves [field] (model w) = true ->
  (exists template,
      fst (Inspector.render_template convert (snd (set_property name value w)))
      = inr template) ->
  exists w' : World unit,
    (set_property name value ;;
     performUpdate (Inspector.render_template convert) Inspector.updated) w
    = (inr tt, w')
    /\ properties w' = <[name := value]> (properties w)
    /\ AnyModel.calls (model w')
       = AnyModel.calls (model w)
         ++ (if notEqual value (default Js.Undefined (properties w !! name))
             then [CallSet field value; CallSaveChanges]
             else [])
    /\ changedProperties w' = [].
Proof.
  intros Hm Hc Hinv Hs [template Hr].
  unfold bind. unfold set_property at 1. unfold set_property in Hr.
  cbn [snd] in Hr. rewrite Hc in *. cbn [map app] in *.
  rewrite bool_decide_eq_false_2 in * by apply not_elem_of_nil.
  rewrite andb_true_r in *.
  destruct (notEqual value (default Js.Undefined (properties w !! name))).
  - set (w1 := mkWorld _ _ _ _ _ _) in *.
    unfold performUpdate. cbn [changedProperties w1]. fold w1.
    pose proof (Inspector_render_world convert w1) as Hw.
    destruct (Inspector.render_template convert w1) as [[e|t] w1'];
      [discriminate Hr|].
    cbn [snd] in Hw. subst w1'.
    unfold Inspector.updated, updated, bind. rewrite updated_loop_run.
    + unfold optional_model, markUpdated, w1.
      cbn [_model with_model properties model]. rewrite Hm.
      unfold model_save_changes. cbn [properties model with_model].
      rewrite (pushes_single _ _ _ _ field) by done.
      rewrite lookup_insert_eq. eexists. split; [reflexivity|].
      cbn [properties changedProperties model with_model stage_all foldl
           AnyModel.calls AnyModel.save_changes AnyModel.stage fst snd default].
      repeat split. by rewrite <- app_assoc.
    + exact Hm.
    + unfold markUpdated, w1. cbn [properties model with_model].
      rewrite (pushes_single _ _ _ _ field) by done. exact Hs.
  - unfold performUpdate. cbn [changedProperties]. eexists.
    split; [reflexivity|]. cbn [properties changedProperties model].
    repeat split. by rewrite app_nil_r.
Qed.

(** X3: a click on a checkbox of an attached inspector that shows plain
    nodes.  The handler assigns the state of the checkbox to its property,
    and Lit's update sends it to the field the checkbox stands for: one
    [set] with the new state and one [save_changes] when the state differs
    from the property, no call when it does not.  No other property
    changes. *)
Theorem checkbox_is_sent_to_the_model :
  forall (convert : Js.Value -> option float) (w : World unit)
         (handler : bool -> M unit unit) (field name : string)
         (checked : bool),
    (handler, field, name) ∈ checkboxes ->
    _model w = true ->
    changedProperties w = [] ->
    serves [field] (model w) = true ->
    forallb (fun k => plain_node (default Js.Undefined (properties w !! k)))
            info_properties = true ->
    exists w' : World unit,
      (handler checked ;;
       performUpdate (Inspector.render_template convert) Inspector.updated) w
      = (inr tt, w')
      /\ properties w' = <[name := Js.Bool checked]> (properties w)
      /\ AnyModel.calls (model w')
         = AnyModel.calls (model w)
           ++ (if notEqual (Js.Bool checked)
                    (default Js.Undefined (properties w !! name))
               then [CallSet field (Js.Bool checked); CallSaveChanges]
               else [])
      /\ changedProperties w' = [].
Proof.
  intros convert w handler field name checked Hin Hm Hc Hs Hplain.
  unfold checkboxes in Hin. rewrite !elem_of_cons, elem_of_nil in Hin.
  assert (Hcase :
    handler = (fun checked => set_property name (Js.Bool checked))
    /\ Inspector.viewNameToModelName !! name = Some field
    /\ name ≠ "pointInfo" /\ name ≠ "pixelInfo" /\ name ≠ "objectInfo").
  { destruct Hin as [H|[H|[H|[]]]]; inversion H; subst;
      (split; [reflexivity|]); (split; [by vm_compute|]); done. }
  destruct Hcase as (-> & Hinv & Hn1 & Hn2 & Hn3).
  apply Inspector_set_then_update; try done.
  apply Inspector_render_plain. unfold set_property. cbn [snd properties].
  rewrite <- Hplain. unfold info_properties. cbn [forallb].
  by rewrite !lookup_insert_ne.
Qed.

(** The user ticks [Pixels] in the rendered inspector. *)
Lemma pixel_checkbox_in_notebook :
  exists w' : World unit,
    (Inspector.onPixelCheckboxEvent true ;;
     performUpdate (Inspector.render_template unconverted) Inspector.updated)
      inspector_rendered
    = (inr tt, w')
    /\ properties w'
       = <["expandPixels" := Js.Bool true]> (properties inspector_rendered)
    /\ AnyModel.calls (model w')
       = AnyModel.calls (model inspector_rendered)
         ++ (if notEqual (Js.Bool true)
                  (default Js.Undefined
                     (properties inspector_rendered !! "expandPixels"))
             then [CallSet "expand_pixels" (Js.Bool true); CallSaveChanges]
             else [])
    /\ changedProperties w' = [].
Proof.
  apply checkbox_is_sent_to_the_model.
  - unfold checkboxes. apply list_elem_of_further, list_elem_of_here.
  - vm_compute. reflexivity.
  - vm_compute. reflexivity.
  - vm_compute. reflexivity.
  - vm_compute. reflexivity.
Defined.

(** X4: before the element has its model ([this._model] undefined),
    nothing reaches the model and nothing raises: [updated] does nothing for
    any batch of any widget, nor does the close button, nor do
    [calculateBandStats] and [onPaletteChanged] of the layer editor, whose
    message is not even built (the event detail is not read). *)
Theorem nothing_is_sent_before_attach :
  (forall (C : Type) (inverse : gmap string string) (w : World C)
          (changed : list (string * Js.Value)),
      _model w = false ->
      updated inverse changed w = (inr tt, w)
      /\ onCloseButtonClicked w = (inr tt, w))
  /\ (forall (w : LayerEditor.W) (detail : Js.Value),
      _model w = false ->
      LayerEditor.calculateBandStats w = (inr tt, w)
      /\ LayerEditor.onPaletteChanged detail w = (inr tt, w)).
Proof.
  split.
  - intros C inverse w changed Hm. split.
    + unfold updated, bind.
      assert (Hloop : for_of changed (updated_step inverse) w = (inr tt, w)).
      { induction changed as [|[p old] changed IH]; [done|].
        cbn [for_of]. unfold bind, updated_step at 1.
        destruct (inverse !! p); [unfold optional_model; rewrite Hm|]; exact IH. }
      rewrite Hloop. unfold optional_model. by rewrite Hm.
    + unfold onCloseButtonClicked, optional_model. by rewrite Hm.
  - intros w detail Hm. split.
    + unfold LayerEditor.calculateBandStats, optional_model. by rewrite Hm.
    + unfold LayerEditor.onPaletteChanged, optional_model. by rewrite Hm.
Qed.

(** The inspector of the notebook between its constructor and
    [set model]. *)
Lemma nothing_is_sent_by_the_new_inspector :
  updated Inspector.viewNameToModelName (changedProperties inspector_created)
    inspector_created
  = (inr tt, inspector_created)
  /\ onCloseButtonClicked inspector_created = (inr tt, inspector_created).
Proof.
  apply (proj1 nothing_is_sent_before_attach). reflexivity.
Defined.

(** ** More of the layer editor *)

Lemma properties_after_on {C} event callback (w : World C) :
  properties (snd (model_on event callback w)) = properties w.
Proof. reflexivity. Qed.

Lemma listeners_after_on {C} event callback (w : World C) :
  AnyModel.listeners (model (snd (model_on event callback w)))
  = AnyModel.listeners (model w) ++ [(event, callback)].
Proof. reflexivity. Qed.

(** X5: what [set model] of the layer editor adds to the model when the
    four bound fields are answered, whatever the model does for
    [children]: the subscriptions of the four fields, in the order of the
    key map, and one [msg:custom] callback after them.  The entry
    [children], whose local name is null, gets no subscription and no
    property.  A layer editor attached again has two [msg:custom]
    callbacks, and a custom message runs the handler twice. *)
Theorem LayerEditor_attach_subscriptions :
  forall w : LayerEditor.W,
    serves ["title"; "type"; "band_names"; "colormaps"] (model w) = true ->
    exists w' : LayerEditor.W,
      LayerEditor.set_model w = (inr tt, w')
      /\ AnyModel.listeners (model w')
         = AnyModel.listeners (model w)
           ++ [ ("change:title", SyncProperty "title" "title");
                ("change:type", SyncProperty "type" "type");
                ("change:band_names", SyncProperty "band_names" "bandNames");
                ("change:colormaps", SyncProperty "colormaps" "colormaps");
                ("msg:custom", CustomMessage) ]
      /\ properties w' !! "children" = properties w !! "children"
      /\ (AnyModel.listeners_for "msg:custom" (model w) = [CustomMessage] ->
          forall msg,
            LayerEditor.custom_message msg w'
            = (LayerEditor.onCustomMessage msg ;;
               LayerEditor.onCustomMessage msg ;;
               ret 2) w').
Proof.
  intros w Hs. eexists. split; [apply LayerEditor_set_model_run; exact Hs|].
  set (w1 := attach_all _ _).
  assert (Hp : properties (snd (model_on "msg:custom" CustomMessage w1))
               !! "children" = properties w !! "children").
  { rewrite properties_after_on. unfold w1.
    rewrite attach_all_properties_other; [reflexivity|].
    apply (bool_decide_unpack _). vm_compute. exact I. }
  assert (Hl : AnyModel.listeners
                 (model (snd (model_on "msg:custom" CustomMessage w1)))
               = AnyModel.listeners (model w)
                 ++ [ ("change:title", SyncProperty "title" "title");
                      ("change:type", SyncProperty "type" "type");
                      ("change:band_names",
                       SyncProperty "band_names" "bandNames");
                      ("change:colormaps",
                       SyncProperty "colormaps" "colormaps");
                      ("msg:custom", CustomMessage) ]).
  { rewrite listeners_after_on. unfold w1. rewrite attach_all_listeners.
    rewrite <- app_assoc. reflexivity. }
  set (w' := snd (model_on "msg:custom" CustomMessage w1)) in *.
  clearbody w'. clear w1.
  split; [exact Hl|]. split; [exact Hp|].
  intros Hone msg.
  assert (Hfor : AnyModel.listeners_for "msg:custom" (model w')
                 = [CustomMessage; CustomMessage]).
  { unfold AnyModel.listeners_for in *.
    rewrite Hl, filter_app, map_app, Hone. reflexivity. }
  unfold LayerEditor.custom_message, custom_message, trigger.
  rewrite Hfor. cbn [for_of call_listener length]. unfold bind, ret.
  destruct (LayerEditor.onCustomMessage msg w') as [[e|[]] w2]; [done|].
  by destruct (LayerEditor.onCustomMessage msg w2) as [[e|[]] w3].
Qed.

(** The layer editor of the notebook's model, attached once more. *)
Lemma LayerEditor_attach_in_notebook :
  exists w' : LayerEditor.W,
    LayerEditor.set_model layer_editor = (inr tt, w')
    /\ AnyModel.listeners (model w')
       = AnyModel.listeners (model layer_editor)
         ++ [ ("change:title", SyncProperty "title" "title");
              ("change:type", SyncProperty "type" "type");
              ("change:band_names", SyncProperty "band_names" "bandNames");
              ("change:colormaps", SyncProperty "colormaps" "colormaps");
              ("msg:custom", CustomMessage) ]
    /\ properties w' !! "children" = properties layer_editor !! "children"
    /\ (AnyModel.listeners_for "msg:custom" (model layer_editor)
        = [CustomMessage] ->
        forall msg,
          LayerEditor.custom_message msg w'
          = (LayerEditor.onCustomMessage msg ;;
             LayerEditor.onCustomMessage msg ;;
             ret 2) w').
Proof.
  apply LayerEditor_attach_subscriptions. vm_compute. reflexivity.
Defined.



(** ** The container and [renderSelect] *)

(** [!v] is never [v]. *)
Lemma notEqual_negation v : notEqual (Js.Bool (negb (Js.truthy v))) v = true.
Proof. unfold notEqual. destruct v as [| |[]| | | |]; reflexivity. Qed.

Lemma Container_render_run (w : World unit) :
  Container.render w
  = (inr (Container.mkTemplate
            (if Js.truthy (default Js.Undefined (properties w !! "hideCloseButton"))
             then "hidden" else "")
            (if Js.truthy (default Js.Undefined (properties w !! "collapsed"))
             then "&#xf830;" else "&#xf507;")
            (if Js.truthy (default Js.Undefined (properties w !! "title"))
             then "" else "hidden")
            (default Js.Undefined (properties w !! "title"))
            (if Js.truthy (default Js.Undefined (properties w !! "collapsed"))
             then "hidden" else "")),
     w).
Proof. reflexivity. Qed.

Lemma Container_collapse_clicked_run (w : World unit) :
  _model w = true ->
  changedProperties w = [] ->
  serves ["collapsed"] (model w) = true ->
  let collapsed :=
    Js.Bool (negb (Js.truthy (default Js.Undefined (properties w !! "collapsed")))) in
  Container.collapse_clicked w
  = (inr tt,
     mkWorld
       (AnyModel.save_changes (AnyModel.stage "collapsed" collapsed (model w)))
       true (<["collapsed" := collapsed]> (properties w)) [] (children w)
       (next_oid w)).
Proof.
  intros Hm Hc Hs collapsed.
  unfold Container.collapse_clicked, Container.onCollapseToggled, bind.
  unfold get_property at 1. unfold set_property.
  cbn [properties changedProperties model _model children next_oid].
  rewrite Hc. cbn [map app].
  rewrite bool_decide_eq_false_2 by apply not_elem_of_nil.
  rewrite notEqual_negation. cbn [andb negb]. fold collapsed.
  unfold performUpdate. cbn [changedProperties].
  rewrite Container_render_run.
  unfold Container.updated, updated, bind. rewrite updated_loop_run.
  - unfold optional_model, markUpdated.
    cbn [_model with_model properties model]. rewrite Hm.
    unfold model_save_changes. cbn [properties model with_model].
    assert (Hinv : Container.viewNameToModelName !! "collapsed"
                   = Some "collapsed") by (vm_compute; reflexivity).
    rewrite (pushes_single _ _ _ _ "collapsed") by exact Hinv.
    rewrite lookup_insert_eq. reflexivity.
  - exact Hm.
  - unfold markUpdated. cbn [properties model with_model].
    assert (Hinv : Container.viewNameToModelName !! "collapsed"
                   = Some "collapsed") by (vm_compute; reflexivity).
    rewrite (pushes_single _ _ _ _ "collapsed") by exact Hinv. exact Hs.
Qed.

(** X7: a click on the collapse button of an attached container always
    reaches the model.  Whatever value [collapsed] has, [onCollapseToggled]
    assigns its negation, a boolean that differs from it, so Lit's update
    sends one [set("collapsed", ...)] with that boolean and one
    [save_changes]; the content is hidden exactly when the new value is
    [true].  After a second click [collapsed] is the truth value of the
    original one: the original itself when it was a boolean. *)
Theorem collapse_click_reaches_the_model :
  forall w : World unit,
    _model w = true ->
    changedProperties w = [] ->
    serves ["collapsed"] (model w) = true ->
    let old := default Js.Undefined (properties w !! "collapsed") in
    exists w1 w2 : World unit,
      Container.collapse_clicked w = (inr tt, w1)
      /\ properties w1
         = <["collapsed" := Js.Bool (negb (Js.truthy old))]> (properties w)
      /\ AnyModel.calls (model w1)
         = AnyModel.calls (model w)
           ++ [CallSet "collapsed" (Js.Bool (negb (Js.truthy old)));
               CallSaveChanges]
      /\ option_map Container.containerClass
           (match fst (Container.render w1) with
            | inr template => Some template
            | inl _ => None
            end)
         = Some (if Js.truthy old then "" else "hidden")
      /\ Container.collapse_clicked w1 = (inr tt, w2)
      /\ properties w2 !! "collapsed" = Some (Js.Bool (Js.truthy old))
      /\ AnyModel.calls (model w2)
         = AnyModel.calls (model w)
           ++ [CallSet "collapsed" (Js.Bool (negb (Js.truthy old)));
               CallSaveChanges;
               CallSet "collapsed" (Js.Bool (Js.truthy old));
               CallSaveChanges].
Proof.
  intros w Hm Hc Hs old.
  rewrite Container_collapse_clicked_run by done. fold old.
  set (w1 := mkWorld _ _ _ _ _ _).
  assert (H1 : Container.collapse_clicked w1
               = (inr tt,
                  mkWorld
                    (AnyModel.save_changes
                       (AnyModel.stage "collapsed" (Js.Bool (Js.truthy old))
                          (model w1)))
                    true
                    (<["collapsed" := Js.Bool (Js.truthy old)]> (properties w1))
                    [] (children w1) (next_oid w1))).
  { rewrite Container_collapse_clicked_run; try done.
    unfold w1. cbn [properties]. rewrite lookup_insert_eq.
    cbn [default id Js.truthy]. by rewrite negb_involutive. }
  exists w1. eexists. split; [reflexivity|]. split; [reflexivity|].
  split.
  { unfold w1. cbn [model AnyModel.calls AnyModel.save_changes AnyModel.stage].
    by rewrite <- app_assoc. }
  split.
  { rewrite Container_render_run. unfold w1. cbn [fst option_map properties
                                                  Container.containerClass].
    rewrite lookup_insert_eq. cbn [default id Js.truthy].
    by destruct (Js.truthy old). }
  split; [exact H1|]. split.
  { cbn [properties]. by rewrite lookup_insert_eq. }
  unfold w1. cbn [model AnyModel.calls AnyModel.save_changes AnyModel.stage].
  by rewrite <- !app_assoc.
Qed.

(** Two clicks on the collapse button of the container of the notebook. *)
Lemma collapse_click_in_notebook :
  exists w1 w2 : World unit,
    Container.collapse_clicked container = (inr tt, w1)
    /\ properties w1
       = <["collapsed" :=
             Js.Bool (negb (Js.truthy
                              (default Js.Undefined
                                 (properties container !! "collapsed"))))]>
           (properties container)
    /\ AnyModel.calls (model w1)
       = AnyModel.calls (model container)
         ++ [CallSet "collapsed"
               (Js.Bool (negb (Js.truthy
                                 (default Js.Undefined
                                    (properties container !! "collapsed")))));
             CallSaveChanges]
    /\ option_map Container.containerClass
         (match fst (Container.render w1) with
          | inr template => Some template
          | inl _ => None
          end)
       = Some (if Js.truthy (default Js.Undefined
                               (properties container !! "collapsed"))
               then "" else "hidden")
    /\ Container.collapse_clicked w1 = (inr tt, w2)
    /\ properties w2 !! "collapsed"
       = Some (Js.Bool (Js.truthy (default Js.Undefined
                                     (properties container !! "collapsed"))))
    /\ AnyModel.calls (model w2)
       = AnyModel.calls (model container)
         ++ [CallSet "collapsed"
               (Js.Bool (negb (Js.truthy
                                 (default Js.Undefined
                                    (properties container !! "collapsed")))));
             CallSaveChanges;
             CallSet "collapsed"
               (Js.Bool (Js.truthy (default Js.Undefined
                                      (properties container !! "collapsed"))));
             CallSaveChanges].
Proof.
  apply collapse_click_reaches_the_model.
  - vm_compute. reflexivity.
  - vm_compute. reflexivity.
  - vm_compute. reflexivity.
Defined.

(** The calls of the two clicks. *)
Example collapse_click_in_notebook_calls :
  calls_of Container.collapse_clicked container
  = [CallSet "collapsed" (Js.Bool true); CallSaveChanges]
  /\ calls_of (Container.collapse_clicked ;; Container.collapse_clicked)
              container
     = [CallSet "collapsed" (Js.Bool true); CallSaveChanges;
        CallSet "collapsed" (Js.Bool false); CallSaveChanges].
Proof. vm_compute. split; reflexivity. Qed.

Lemma renderSelect_selected_none options value :
  value ∉ map option_value options ->
  filter (fun o => selected o = true) (renderSelect options value) = [].
Proof.
  induction options as [|o options IH]; [done|].
  cbn [map]. rewrite not_elem_of_cons. intros [Hne Hnot].
  cbn [renderSelect map]. rewrite filter_cons.
  assert (Hsel : String.eqb value (option_value o) = false)
    by by apply String.eqb_neq.
  rewrite decide_False.
  - by apply IH.
  - destruct o; cbn [selected option_value] in *; by rewrite Hsel.
Qed.

(** X8: [renderSelect] makes one [option] for each entry, in order, with
    the value of the entry; an option is marked [selected] exactly when its
    value is the value handed in.  So no option is marked when the value is
    not among the entries, and when it is and the entries have distinct
    values, exactly one is. *)
Theorem renderSelect_marks_the_value :
  forall (options : list SelectOption) (value : string),
    map optValue (renderSelect options value) = map option_value options
    /\ map selected (renderSelect options value)
       = map (fun o => String.eqb value (option_value o)) options
    /\ (value ∉ map option_value options ->
        filter (fun o => selected o = true) (renderSelect options value) = [])
    /\ (NoDup (map option_value options) ->
        value ∈ map option_value options ->
        exists label,
          filter (fun o => selected o = true) (renderSelect options value)
          = [mkOption value true label]).
Proof.
  intros options value.
  split. { unfold renderSelect. rewrite map_map. apply map_ext. by intros []. }
  split. { unfold renderSelect. rewrite map_map. apply map_ext. by intros []. }
  split; [apply renderSelect_selected_none|].
  induction options as [|o options IH]; intros Hnd Hin.
  - by apply elem_of_nil in Hin.
  - cbn [map] in Hnd, Hin. apply NoDup_cons in Hnd as [Hnot Hnd].
    cbn [renderSelect map]. rewrite filter_cons.
    destruct (String.eqb value (option_value o)) eqn:Heq.
    + apply String.eqb_eq in Heq. subst value.
      rewrite decide_True by (destruct o; cbn; by rewrite String.eqb_refl).
      fold (renderSelect options (option_value o)).
      rewrite renderSelect_selected_none by done.
      destruct o as [s|label v]; cbn [option_value]; rewrite String.eqb_refl;
        eauto.
    + rewrite decide_False
        by (destruct o; cbn [selected option_value] in *; by rewrite Heq).
      apply IH; [done|].
      apply elem_of_cons in Hin as [->|Hin]; [|done].
      by rewrite String.eqb_refl in Heq.
Qed.

(** The stretch select of the raster editor, at [sigma-2]. *)
Lemma renderSelect_stretch :
  exists label,
    filter (fun o => selected o = true)
      (renderSelect
         [OptionObject "Custom" "custom"; OptionObject "1s" "sigma-1";
          OptionObject "2s" "sigma-2"; OptionObject "3s" "sigma-3"]
         "sigma-2")
    = [mkOption "sigma-2" true label].
Proof.
  apply renderSelect_marks_the_value.
  - apply (bool_decide_unpack _). vm_compute. exact I.
  - apply (bool_decide_unpack _). vm_compute. exact I.
Defined.

(** ** The first update of the inspector *)

Lemma attach_all_changed {C} pairs : forall w : World C,
  (forall e, e ∈ pairs -> snd e ∈ map fst (changedProperties w)) ->
  changedProperties (attach_all pairs w) = changedProperties w.
Proof.
  induction pairs as [|e pairs IH]; intros w Hrec; [done|].
  rewrite attach_all_cons.
  assert (Hstep : changedProperties (attach_entry e w) = changedProperties w).
  { unfold attach_entry, set_property.
    cbn [snd changedProperties with_model].
    rewrite (bool_decide_eq_true_2 (snd e ∈ _)) by (apply Hrec; left).
    by rewrite andb_false_r. }
  rewrite IH, Hstep; [done|].
  intros e' He'. rewrite Hstep. apply Hrec. by right.
Qed.

(** Writes that hand the model the values it has leave what [get] returns
    as it is. *)
Lemma stage_all_same_values sets : forall m,
  (forall s, s ∈ sets ->
             snd s = default Js.Undefined (AnyModel.attributes m !! fst s)) ->
  forall key, AnyModel.get key (stage_all sets m) = AnyModel.get key m.
Proof.
  induction sets as [|s sets IH]; intros m Hsame key; [done|].
  change (stage_all (s :: sets) m)
    with (stage_all sets (AnyModel.stage (fst s) (snd s) m)).
  assert (Hstep : forall k,
    default Js.Undefined
      (AnyModel.attributes (AnyModel.stage (fst s) (snd s) m) !! k)
    = default Js.Undefined (AnyModel.attributes m !! k)).
  { intros k. cbn [AnyModel.stage AnyModel.attributes].
    destruct (decide (fst s = k)) as [<-|Hne].
    - rewrite lookup_insert_eq. cbn [default]. apply Hsame. left.
    - by rewrite lookup_insert_ne. }
  rewrite IH.
  - unfold AnyModel.get. cbn [AnyModel.stage AnyModel.failing].
    destruct (decide (key ∈ AnyModel.failing m)); [done|].
    f_equal. apply Hstep.
  - intros s' Hs'. rewrite Hstep. apply Hsame. by right.
Qed.

Lemma get_after_save_changes key m :
  AnyModel.get key (AnyModel.save_changes m) = AnyModel.get key m.
Proof. reflexivity. Qed.

Lemma pushes_of_bound (inverse : gmap string string)
    (props : gmap string Js.Value) (pairs : list (string * string)) :
  (forall e, e ∈ pairs -> inverse !! snd e = Some (fst e)) ->
  pushes inverse props (map (fun e => (snd e, Js.Undefined)) pairs)
  = map (fun e => (fst e, default Js.Undefined (props !! snd e))) pairs.
Proof.
  induction pairs as [|e pairs IH]; intros Hinv; [done|].
  cbn [map]. rewrite pushes_cons.
  rewrite (pushes_single _ _ _ _ (fst e)) by (apply Hinv; left).
  rewrite IH; [done|]. intros e' He'. apply Hinv. by right.
Qed.

Lemma Inspector_bound_entry modelKey widgetKey :
  (modelKey, widgetKey) ∈ bound Inspector.modelNameToViewName ->
  Inspector.viewNameToModelName !! widgetKey = Some modelKey.
Proof.
  intros Hin. apply list_elem_of_omap in Hin as ([f [l|]] & Hin & Heq);
    cbn in Heq; [|done].
  destruct (negb (String.eqb l "")); [|done]. injection Heq as -> ->.
  by destruct (Inspector_entry _ _ Hin) as (_ & ? & _).
Qed.

(** The element after the constructor: every property is recorded as
    changed, from [undefined]. *)
Lemma Inspector_construct_run (m : AnyModel.t) (oid : nat) :
  exists wc : World unit,
    Inspector.construct (Inspector.blank m oid) = (inr tt, wc)
    /\ model wc = m
    /\ changedProperties wc
       = map (fun e => (snd e, Js.Undefined))
             (bound Inspector.modelNameToViewName).
Proof. eexists. split; [vm_compute; reflexivity|]. split; reflexivity. Qed.

(** The new inspector after [render] of the module, on a model that answers
    the seven fields: the model is as before but for its subscriptions, every
    property is recorded as changed, and each holds the value of its
    field. *)
Lemma Inspector_render_run (m : AnyModel.t) (oid : nat) :
  serves inspector_fields m = true ->
  exists wa : World unit,
    Inspector.render (Inspector.blank m oid) = (inr tt, wa)
    /\ AnyModel.attributes (model wa) = AnyModel.attributes m
    /\ AnyModel.failing (model wa) = AnyModel.failing m
    /\ AnyModel.calls (model wa) = AnyModel.calls m
    /\ _model wa = true
    /\ changedProperties wa
       = map (fun e => (snd e, Js.Undefined))
             (bound Inspector.modelNameToViewName)
    /\ (forall f l, (f, l) ∈ bound Inspector.modelNameToViewName ->
          properties wa !! l
          = Some (default Js.Undefined (AnyModel.attributes m !! f))).
Proof.
  intros Hs.
  destruct (Inspector_construct_run m oid) as (wc & Hconstruct & Hwc & Hchanged).
  unfold Inspector.render, bind. rewrite Hconstruct.
  rewrite Inspector_set_model_run by (rewrite Hwc; exact Hs).
  eexists. split; [reflexivity|].
  destruct (attach_all_frame (bound Inspector.modelNameToViewName)
              (snd (assign_model wc)))
    as (Hattrs & Hfail & Hcalls & Hmodel & _).
  rewrite Hattrs, Hfail, Hcalls, Hmodel.
  change (model (snd (assign_model wc))) with (model wc). rewrite Hwc.
  split; [reflexivity|]. split; [reflexivity|]. split; [reflexivity|].
  split; [reflexivity|]. split.
  - rewrite attach_all_changed.
    + exact Hchanged.
    + intros e He.
      change (changedProperties (snd (assign_model wc)))
        with (changedProperties wc).
      rewrite Hchanged, <- list_fmap_compose.
      by apply (list_elem_of_fmap_2 snd) in He.
  - intros f l He.
    rewrite (attach_all_properties _ _ f l); [|exact Inspector_bound_NoDup|done].
    change (model (snd (assign_model wc))) with (model wc). by rewrite Hwc.
Qed.

Lemma Inspector_first_update convert (m : AnyModel.t) (wa : World unit) :
  serves inspector_fields m = true ->
  forallb (fun f => plain_node
                      (default Js.Undefined (AnyModel.attributes m !! f)))
          ["point_info"; "pixel_info"; "object_info"] = true ->
  AnyModel.failing (model wa) = AnyModel.failing m ->
  _model wa = true ->
  changedProperties wa
  = map (fun e => (snd e, Js.Undefined)) (bound Inspector.modelNameToViewName) ->
  (forall f l, (f, l) ∈ bound Inspector.modelNameToViewName ->
     properties wa !! l
     = Some (default Js.Undefined (AnyModel.attributes m !! f))) ->
  performUpdate (Inspector.render_template convert) Inspector.updated wa
  = (inr tt,
     with_model
       (AnyModel.save_changes
          (stage_all
             (map (fun f => (f, default Js.Undefined
                                  (AnyModel.attributes m !! f)))
                  inspector_fields)
             (model wa)))
       (markUpdated wa)).
Proof.
  intros Hs Hplain Hfail Hmodel Hch Hprops.
  assert (Hrender : exists template,
             Inspector.render_template convert wa = (inr template, wa)).
  { destruct (Inspector_render_plain convert wa) as [template Ht].
    - cbn [forallb info_properties]. cbn [forallb] in Hplain.
      rewrite (Hprops "point_info" "pointInfo"),
        (Hprops "pixel_info" "pixelInfo"), (Hprops "object_info" "objectInfo");
        [exact Hplain|apply (bool_decide_unpack _); vm_compute; exact I..].
    - exists template. pose proof (Inspector_render_world convert wa) as Hw.
      destruct (Inspector.render_template convert wa) as [r w'].
      cbn [fst snd] in Ht, Hw. by subst. }
  destruct Hrender as [template Hrender].
  remember (map (fun f => (f, default Js.Undefined
                                (AnyModel.attributes m !! f)))
                inspector_fields) as sets eqn:Hsets.
  assert (Hpushes : pushes Inspector.viewNameToModelName (properties wa)
                      (changedProperties wa) = sets).
  { rewrite Hsets, Hch, pushes_of_bound
      by (intros [f l] He; by apply Inspector_bound_entry).
    change (bound Inspector.modelNameToViewName)
      with [("hide_close_button", "hideCloseButton");
            ("expand_points", "expandPoints");
            ("expand_pixels", "expandPixels");
            ("expand_objects", "expandObjects");
            ("point_info", "pointInfo"); ("pixel_info", "pixelInfo");
            ("object_info", "objectInfo")] in *.
    cbn [map fst snd].
    rewrite (Hprops "hide_close_button" "hideCloseButton"),
      (Hprops "expand_points" "expandPoints"),
      (Hprops "expand_pixels" "expandPixels"),
      (Hprops "expand_objects" "expandObjects"),
      (Hprops "point_info" "pointInfo"), (Hprops "pixel_info" "pixelInfo"),
      (Hprops "object_info" "objectInfo");
      [reflexivity|apply (bool_decide_unpack _); vm_compute; exact I..]. }
  assert (Hne : exists c changed, changedProperties wa = c :: changed)
    by (rewrite Hch; vm_compute; eauto).
  destruct Hne as (c & changed & Hne).
  unfold performUpdate. rewrite Hne, Hrender, <- Hne.
  unfold Inspector.updated, updated, bind. rewrite updated_loop_run.
  - unfold optional_model. cbn [_model with_model markUpdated].
    rewrite Hmodel. unfold model_save_changes.
    cbn [properties model with_model markUpdated]. by rewrite Hpushes.
  - exact Hmodel.
  - cbn [properties model markUpdated]. rewrite Hpushes.
    rewrite (serves_same _ _ m) by exact Hfail.
    rewrite Hsets, map_map. cbn [fst]. by rewrite map_id.
Qed.

(** X9: the first update of a new inspector sends the model its own values
    back.  On a model that answers the seven fields and holds plain nodes,
    [render] of the module ends normally, and the first update of the
    element issues one [set] for each field, in the order of the key map
    and with the value the model has for it, followed by one
    [save_changes]; what [get] returns for any field is as before. *)
Theorem first_update_echoes_the_model :
  forall (convert : Js.Value -> option float) (m : AnyModel.t) (oid : nat),
    serves inspector_fields m = true ->
    forallb (fun f => plain_node
                        (default Js.Undefined (AnyModel.attributes m !! f)))
            ["point_info"; "pixel_info"; "object_info"] = true ->
    exists w1 w2 : World unit,
      Inspector.render (Inspector.blank m oid) = (inr tt, w1)
      /\ performUpdate (Inspector.render_template convert) Inspector.updated w1
         = (inr tt, w2)
      /\ AnyModel.calls (model w2)
         = AnyModel.calls m
           ++ map (fun f =>
                     CallSet f
                       (default Js.Undefined (AnyModel.attributes m !! f)))
                  inspector_fields
           ++ [CallSaveChanges]
      /\ (forall key, AnyModel.get key (model w2) = AnyModel.get key m)
      /\ changedProperties w2 = [].
Proof.
  intros convert m oid Hs Hplain.
  destruct (Inspector_render_run m oid Hs)
    as (wa & Hrun & Hattrs & Hfail & Hcalls & Hmodel & Hch & Hprops).
  pose proof (Inspector_first_update convert m wa Hs Hplain Hfail Hmodel Hch
                Hprops) as Hupd.
  exists wa. eexists. split; [exact Hrun|]. split; [exact Hupd|].
  split; [|split; [|reflexivity]].
  - cbn [snd model with_model AnyModel.calls AnyModel.save_changes].
    rewrite stage_all_calls, Hcalls, <- app_assoc. do 2 f_equal.
  - intros key. cbn [snd model with_model].
    rewrite get_after_save_changes, stage_all_same_values.
    + unfold AnyModel.get. by rewrite Hattrs, Hfail.
    + intros s Hin. apply list_elem_of_fmap in Hin as (f & -> & _).
      cbn [fst snd]. by rewrite Hattrs.
Qed.

(** The inspector of the notebook. *)
Lemma first_update_in_notebook :
  exists w1 w2 : World unit,
    Inspector.render (Inspector.blank notebook_model 10) = (inr tt, w1)
    /\ performUpdate (Inspector.render_template unconverted)
         Inspector.updated w1
       = (inr tt, w2)
    /\ AnyModel.calls (model w2)
       = AnyModel.calls notebook_model
         ++ map (fun f =>
                   CallSet f
                     (default Js.Undefined
                        (AnyModel.attributes notebook_model !! f)))
                inspector_fields
         ++ [CallSaveChanges]
    /\ (forall key,
          AnyModel.get key (model w2) = AnyModel.get key notebook_model)
    /\ changedProperties w2 = [].
Proof.
  apply first_update_echoes_the_model.
  - vm_compute. reflexivity.
  - vm_compute. reflexivity.
Defined.

(** The calls of its first update. *)
Example first_update_in_notebook_calls :
  AnyModel.calls (model inspector_rendered)
  = [ CallSet "hide_close_button" (Js.Bool false);
      CallSet "expand_points" (Js.Bool false);
      CallSet "expand_pixels" (Js.Bool false);
      CallSet "expand_objects" (Js.Bool true);
      CallSet "point_info" (Js.Obj 1 [("label", Js.Str "Point (1.00, 2.00)")]);
      CallSet "pixel_info" (Js.Obj 2 []);
      CallSet "object_info" (Js.Obj 3 []);
      CallSaveChanges ].
Proof. vm_compute. reflexivity. Qed.

(** ** A sequence of band-stats replies *)



(** Five replies reach the layer editor of the notebook, whose stretch is
    [sigma-1]: the third one decides. *)
Example replies_in_notebook :
  let reply stretch min max :=
    Js.Obj 20 [("bandstats",
                Js.Obj 21 [("stretch", Js.Str stretch);
                           ("min", Js.Num min); ("max", Js.Num max)])] in
  option_map (fun e => (RasterLayerEditor.minValue e,
                        RasterLayerEditor.maxValue e))
    (children
       (after_replies
          [reply "sigma-1" 0%float 255%float; reply "sigma-2" 10%float 200%float;
           reply "sigma-1" 5%float 250%float; Js.Null;
           reply "custom" 1%float 2%float]
          layer_editor))
  = Some (Js.Num 5%float, Js.Num 250%float).
Proof. vm_compute. reflexivity. Qed.
